(** * Job tracker backend: a shallow embedding of the request pipeline

    The development follows the TypeScript sources file by file:
    - [validation/jobSchema.ts], [validation/paramSchemas.ts]: the Zod schemas;
    - [middleware/validateZod.ts]: the three validation middlewares;
    - [middleware/authMiddleware.ts]: the bearer-token gate;
    - [controllers/userController.ts], [controllers/jobController.ts]:
      the request handlers over the Prisma client;
    - [routes/userRoutes.ts], [routes/jobRoutes.ts]: the middleware chains.

    Zod, bcryptjs, jsonwebtoken and the Prisma client are libraries the
    repository calls; the part of their behaviour the handlers rely on is
    written out next to the place where it is used. *)

From Stdlib Require Import String Ascii ZArith List Bool.
From stdpp Require Import base option list strings gmap fin_maps.

Open Scope string_scope.

(** ** JavaScript values *)

(** What a request body, a token payload or a response can hold.  An object
    is its list of own fields, in insertion order. *)
#[warnings="-register-all"]
Inductive JsValue : Type :=
| JUndefined
| JNull
| JBool (b : bool)
| JNum (n : Z)
| JStr (s : string)
| JArr (items : list JsValue)
| JObj (fields : list (string * JsValue)).

(** What a [try] block of the handlers can catch. *)
Inductive Thrown : Type :=
| TypeError                      (* property read on undefined or null *)
| BcryptIllegalArguments         (* bcrypt.hash / compare on a non-string *)
| PrismaValidationError          (* argument of the wrong shape for the model *)
| PrismaUniqueConstraint         (* P2002 *)
| PrismaRecordNotFound           (* P2025 *)
| PrismaForeignKeyConstraint     (* P2003 *)
| JwtSecretMissing.              (* jwt.sign without a secret *)

Inductive Result (A : Type) : Type :=
| Ok (a : A)
| Throw (e : Thrown).
Arguments Ok {A} a.
Arguments Throw {A} e.

#[global] Instance Result_ret : MRet Result := fun _ a => Ok a.
#[global] Instance Result_bind : MBind Result := fun _ _ f r =>
  match r with
  | Ok a => f a
  | Throw e => Throw e
  end.

(** First field named [k], if any. *)
Fixpoint field (fs : list (string * JsValue)) (k : string) : JsValue :=
  match fs with
  | [] => JUndefined
  | (k', v) :: rest => if String.eqb k' k then v else field rest k
  end.

(** [v.k], and [const { k } = v]: reading a property of [undefined] or [null]
    throws, a property an object does not have is [undefined]. *)
Definition prop (v : JsValue) (k : string) : Result JsValue :=
  match v with
  | JUndefined | JNull => Throw TypeError
  | JObj fs => Ok (field fs k)
  | _ => Ok JUndefined
  end.

(** JavaScript truthiness, as in [!email]. *)
Definition truthy (v : JsValue) : bool :=
  match v with
  | JUndefined | JNull => false
  | JBool b => b
  | JNum n => negb (Z.eqb n 0)
  | JStr s => negb (String.eqb s "")
  | JArr _ | JObj _ => true
  end.

(** ** Zod schemas: [validation/jobSchema.ts], [validation/paramSchemas.ts] *)

(** The text of an issue: the message given to [.min], or one that Zod
    words itself. *)
Inductive ZodMessage : Type :=
| Custom (text : string)
| InvalidType
| InvalidEnumValue.

Record ZodIssue : Type := { path : list string; message : ZodMessage }.

(** The field types the schemas of the repository are built from. *)
Inductive ZodType : Type :=
| ZString                                   (* z.string() *)
| ZStringMin (n : nat) (text : string)      (* z.string().min(n, text) *)
| ZEnum (values : list string)              (* z.enum([...]) *)
| ZOptional (inner : ZodType).              (* .optional() *)

(** [z.object({...})]: the fields in the order they are declared. *)
Definition ZodObject : Type := list (string * ZodType).

Definition jobSchema : ZodObject :=
  [ ("title", ZStringMin 1 "Title is required");
    ("company", ZStringMin 1 "Company is required");
    ("status", ZEnum ["WISHLIST"; "APPLIED"; "INTERVIEW"; "OFFER"; "REJECTEDz"]);
    ("description", ZOptional ZString);
    ("notes", ZOptional ZString);
    ("deadline", ZOptional ZString) ].

Definition idParamSchema : ZodObject :=
  [ ("id", ZStringMin 1 "ID is required") ].

Definition userQuerySchema : ZodObject :=
  [ ("page", ZOptional ZString);
    ("limit", ZOptional ZString) ].

Definition in_list (s : string) (l : list string) : bool :=
  existsb (String.eqb s) l.

(** Parsing one value: the value kept, or the message of the issue. The
    type is checked before the length ([min]) or the membership ([enum]). *)
Fixpoint parse_type (t : ZodType) (v : JsValue) : ZodMessage + JsValue :=
  match t with
  | ZString =>
      match v with
      | JStr _ => inr v
      | _ => inl InvalidType
      end
  | ZStringMin n text =>
      match v with
      | JStr s => if (String.length s <? n)%nat then inl (Custom text) else inr v
      | _ => inl InvalidType
      end
  | ZEnum values =>
      match v with
      | JStr s => if in_list s values then inr v else inl InvalidEnumValue
      | _ => inl InvalidType
      end
  | ZOptional inner =>
      match v with
      | JUndefined => inr JUndefined
      | _ => parse_type inner v
      end
  end.

(** The fields of the shape, one after the other: every field is parsed
    and the issues are collected in declaration order, each under the path
    of its key; keys the shape does not name are dropped from the data. *)
Fixpoint parse_shape (shape : ZodObject) (fs : list (string * JsValue))
  : list ZodIssue * list (string * JsValue) :=
  match shape with
  | [] => ([], [])
  | (k, t) :: rest =>
      let (issues, data) := parse_shape rest fs in
      match parse_type t (field fs k) with
      | inl m => ({| path := [k]; message := m |} :: issues, data)
      | inr JUndefined => (issues, data)
      | inr v => (issues, (k, v) :: data)
      end
  end.

(** [schema.safeParse(input)]: [inr data] is [{success: true, data}],
    [inl issues] is [{success: false, error: {issues}}]. *)
Definition safeParse (schema : ZodObject) (input : JsValue)
  : list ZodIssue + JsValue :=
  match input with
  | JObj fs =>
      match parse_shape schema fs with
      | ([], data) => inr (JObj data)
      | (issues, _) => inl issues
      end
  | _ => inl [ {| path := []; message := InvalidType |} ]
  end.

(** ** Requests and responses (Express) *)

Record Request : Type := {
  authorization : option string;   (* req.headers.authorization *)
  params : JsValue;                (* req.params *)
  query : JsValue;                 (* req.query *)
  body : JsValue;                  (* req.body *)
  user : JsValue                   (* (req as any).user *)
}.

Definition set_body (req : Request) (v : JsValue) : Request :=
  {| authorization := authorization req; params := params req;
     query := query req; body := v; user := user req |}.

Definition set_params (req : Request) (v : JsValue) : Request :=
  {| authorization := authorization req; params := v;
     query := query req; body := body req; user := user req |}.

Definition set_query (req : Request) (v : JsValue) : Request :=
  {| authorization := authorization req; params := params req;
     query := v; body := body req; user := user req |}.

Definition set_user (req : Request) (v : JsValue) : Request :=
  {| authorization := authorization req; params := params req;
     query := query req; body := body req; user := v |}.

(** One entry of the [errors] array of a 400 response. *)
Record ErrorEntry : Type := { entry_path : string; entry_message : ZodMessage }.

Inductive Body : Type :=
| Json (v : JsValue)                             (* res.json(v) *)
| Failure (error : string) (details : Thrown)    (* res.json({ error, details }) *)
| ValidationErrors (errors : list ErrorEntry).   (* res.json({ errors }) *)

(** [res.status(code).json(payload)]; [res.json] alone answers 200. *)
Inductive Response : Type :=
| Respond (code : nat) (payload : Body).

Definition code_of (r : Response) : nat :=
  match r with Respond c _ => c end.

Definition payload_of (r : Response) : Body :=
  match r with Respond _ p => p end.

(** What a request handler reads from outside the request and the
    database: the environment variable, the clock, the salt bcrypt draws and
    the id the database gives to a new record. [JWT_SECRET] is the value of
    [process.env.JWT_SECRET], the empty string when the variable is not set:
    jsonwebtoken treats the two alike. *)
Record Env : Type := {
  JWT_SECRET : string;
  now : Z;
  salt : string;
  fresh_id : string
}.

(** ** [middleware/validateZod.ts] *)

(** [issue.path.join('.')] *)
Definition join_path (p : list string) : string := String.concat "." p.

Definition format_issue (issue : ZodIssue) : ErrorEntry :=
  {| entry_path := join_path (path issue); entry_message := message issue |}.

Definition validateZod (schema : ZodObject) (req : Request) : Response + Request :=
  match safeParse schema (body req) with
  | inl issues => inl (Respond 400 (ValidationErrors (map format_issue issues)))
  | inr data => inr (set_body req data)
  end.

Definition validateZodParam (schema : ZodObject) (req : Request) : Response + Request :=
  match safeParse schema (params req) with
  | inl issues => inl (Respond 400 (ValidationErrors (map format_issue issues)))
  | inr data => inr (set_params req data)
  end.

Definition validateZodQuery (schema : ZodObject) (req : Request) : Response + Request :=
  match safeParse schema (query req) with
  | inl issues => inl (Respond 400 (ValidationErrors (map format_issue issues)))
  | inr data => inr (set_query req data)
  end.

(** ** The libraries behind the controllers *)

(** bcryptjs on strings: [bcrypt_hash salt s rounds] is [bcrypt.hash(s, rounds)]
    when the library draws [salt]; [bcrypt_compare s h] is [bcrypt.compare(s, h)]. *)
Class Bcrypt : Type := {
  bcrypt_hash : string -> string -> nat -> string;
  bcrypt_compare : string -> string -> bool
}.

(** What the repository expects of bcrypt: a hash verifies the password
    it was made from, and is not that password. *)
Class BcryptLaws `{Bcrypt} : Prop := {
  compare_hash : forall slt s rounds, bcrypt_compare s (bcrypt_hash slt s rounds) = true;
  hash_differs : forall slt s rounds, bcrypt_hash slt s rounds <> s
}.

(** jsonwebtoken: [jwt_sign payload secret ttl t] is
    [jwt.sign(payload, secret, { expiresIn: ttl })] called at time [t];
    [jwt_verify token secret t] is [jwt.verify(token, secret)] called at time
    [t], [None] when it throws. *)
Class Jwt : Type := {
  jwt_sign : list (string * JsValue) -> string -> Z -> Z -> string;
  jwt_verify : string -> string -> Z -> option JsValue
}.

Definition no_space (s : string) : bool :=
  forallb (fun c => negb (Ascii.eqb c " ")) (list_ascii_of_string s).

(** What the repository expects of jsonwebtoken, for the payload [loginUser]
    signs: before it expires the token verifies to the signed payload, to
    which the library has added the [iat] and [exp] claims; a token is one
    word. *)
Class JwtLaws `{Jwt} : Prop := {
  verify_sign : forall uid secret ttl t t',
    (t <= t' < t + ttl)%Z ->
    exists iat exp,
      jwt_verify (jwt_sign [("userId", JStr uid)] secret ttl t) secret t'
      = Some (JObj [("userId", JStr uid); ("iat", JNum iat); ("exp", JNum exp)]);
  sign_one_word : forall payload secret ttl t,
    no_space (jwt_sign payload secret ttl t) = true
}.

(** ** The database behind the Prisma client *)

(** Modelled from the spec: the models [User] and [Job] of the Prisma schema
    ([prisma/schema.prisma], which the controllers use through the client),
    with the fields of the data model: a user has a unique email, a hashed
    password and an optional display name; a job has a title, a company, a
    status, an optional description, optional notes, an optional deadline
    and the id of its owner; both have an opaque unique id, under which the
    record is stored here. The status is kept as the string the client
    was given, and the owner of a job may be null where the schema lets it
    be (see [userId_nullable]). *)
Record User : Type := {
  email : string;
  password : string;
  name : option string
}.

Record Job : Type := {
  title : string;
  company : string;
  status : string;
  description : option string;
  notes : option string;
  deadline : option string;
  userId : option string
}.

Record Store : Type := {
  users : gmap string User;
  jobs : gmap string Job
}.

Definition set_users (st : Store) (us : gmap string User) : Store :=
  {| users := us; jobs := jobs st |}.

Definition set_jobs (st : Store) (js : gmap string Job) : Store :=
  {| users := users st; jobs := js |}.

(** A record as the client returns it and [res.json] sends it: every
    column, the id included. *)
Definition opt_json (o : option string) : JsValue :=
  match o with
  | Some s => JStr s
  | None => JNull
  end.

Definition user_json (r : string * User) : JsValue :=
  JObj [ ("id", JStr r.1);
         ("email", JStr (email r.2));
         ("password", JStr (password r.2));
         ("name", opt_json (name r.2)) ].

Definition job_json (r : string * Job) : JsValue :=
  JObj [ ("id", JStr r.1);
         ("title", JStr (title r.2));
         ("company", JStr (company r.2));
         ("status", JStr (status r.2));
         ("description", opt_json (description r.2));
         ("notes", opt_json (notes r.2));
         ("deadline", opt_json (deadline r.2));
         ("userId", opt_json (userId r.2)) ].

(** *** Arguments of the client

    The client checks the arguments of a call against the model before it
    touches the database. In [data] and in [where], a field that is
    [undefined] is a field that was not given. *)

(** [data] of [create], a column [String]. *)
Definition string_arg (v : JsValue) : Result string :=
  match v with
  | JStr s => Ok s
  | _ => Throw PrismaValidationError
  end.

(** [data] of [create], a column [String?]. *)
Definition optional_arg (v : JsValue) : Result (option string) :=
  match v with
  | JUndefined | JNull => Ok None
  | JStr s => Ok (Some s)
  | _ => Throw PrismaValidationError
  end.

(** [data] of [update], a column [String]: [None] leaves the column. *)
Definition string_update (v : JsValue) : Result (option string) :=
  match v with
  | JUndefined => Ok None
  | JStr s => Ok (Some s)
  | _ => Throw PrismaValidationError
  end.

(** [data] of [update], a column [String?]. *)
Definition optional_update (v : JsValue) : Result (option (option string)) :=
  match v with
  | JUndefined => Ok None
  | JNull => Ok (Some None)
  | JStr s => Ok (Some (Some s))
  | _ => Throw PrismaValidationError
  end.

(** One field of [where]. *)
Inductive Filter : Type :=
| Unfiltered             (* the field is undefined: no condition *)
| Equals (s : string)
| IsNull.

Definition string_filter (nullable : bool) (v : JsValue) : Result Filter :=
  match v with
  | JUndefined => Ok Unfiltered
  | JStr s => Ok (Equals s)
  | JNull => if nullable then Ok IsNull else Throw PrismaValidationError
  | _ => Throw PrismaValidationError
  end.

Definition passes (f : Filter) (x : option string) : bool :=
  match f, x with
  | Unfiltered, _ => true
  | Equals s, Some s' => String.eqb s s'
  | Equals _, None => false
  | IsNull, None => true
  | IsNull, Some _ => false
  end.

Definition apply_update {A : Type} (old : A) (u : option A) : A :=
  match u with
  | Some new => new
  | None => old
  end.

Section Database.

(** Whether the Prisma schema declares the column [Job.userId] as
    [String?] rather than [String]: a parameter of the client. *)
Variable userId_nullable : bool.

Definition owner_arg (v : JsValue) : Result (option string) :=
  if userId_nullable then optional_arg v else s ← string_arg v; Ok (Some s).

(** [prisma.job.create({ data: { title, description, company, status, userId } })];
    the columns [data] does not name are left null. *)
Definition job_create (new_id : string)
    (title_v description_v company_v status_v userId_v : JsValue) (st : Store)
  : Result ((string * Job) * Store) :=
  t ← string_arg title_v;
  d ← optional_arg description_v;
  c ← string_arg company_v;
  s ← string_arg status_v;
  u ← owner_arg userId_v;
  match jobs st !! new_id with
  | Some _ => Throw PrismaUniqueConstraint
  | None =>
      let j := {| title := t; company := c; status := s; description := d;
                  notes := None; deadline := None; userId := u |} in
      Ok ((new_id, j), set_jobs st (<[new_id := j]> (jobs st)))
  end.

(** [prisma.job.findMany({ where: { userId } })] *)
Definition job_findMany (userId_v : JsValue) (st : Store)
  : Result (list (string * Job)) :=
  fu ← string_filter userId_nullable userId_v;
  Ok (List.filter (fun r => passes fu (userId r.2)) (map_to_list (jobs st))).

(** [prisma.job.findFirst({ where: { id, userId } })] *)
Definition job_findFirst (id_v userId_v : JsValue) (st : Store)
  : Result (option (string * Job)) :=
  fi ← string_filter false id_v;
  fu ← string_filter userId_nullable userId_v;
  Ok (List.find (fun r => passes fi (Some r.1) && passes fu (userId r.2))
                (map_to_list (jobs st))).

(** [prisma.job.update({ where: { id }, data: { title, description, company, status } })] *)
Definition job_update (id_v title_v description_v company_v status_v : JsValue)
    (st : Store) : Result ((string * Job) * Store) :=
  i ← string_arg id_v;
  t ← string_update title_v;
  d ← optional_update description_v;
  c ← string_update company_v;
  s ← string_update status_v;
  match jobs st !! i with
  | None => Throw PrismaRecordNotFound
  | Some j =>
      let j' := {| title := apply_update (title j) t;
                   company := apply_update (company j) c;
                   status := apply_update (status j) s;
                   description := apply_update (description j) d;
                   notes := notes j; deadline := deadline j;
                   userId := userId j |} in
      Ok ((i, j'), set_jobs st (<[i := j']> (jobs st)))
  end.

(** [prisma.job.delete({ where: { id } })] *)
Definition job_delete (id_v : JsValue) (st : Store) : Result Store :=
  i ← string_arg id_v;
  match jobs st !! i with
  | None => Throw PrismaRecordNotFound
  | Some _ => Ok (set_jobs st (delete i (jobs st)))
  end.

End Database.

Definition email_taken (e : string) (us : list (string * User)) : bool :=
  existsb (fun r => String.eqb (email r.2) e) us.

(** [prisma.user.create({ data: { email, password, name } })]: the id and
    the email are unique. *)
Definition user_create (new_id : string) (email_v : JsValue) (hashed : string)
    (name_v : JsValue) (st : Store) : Result ((string * User) * Store) :=
  e ← string_arg email_v;
  n ← optional_arg name_v;
  match users st !! new_id with
  | Some _ => Throw PrismaUniqueConstraint
  | None =>
      if email_taken e (map_to_list (users st)) then Throw PrismaUniqueConstraint
      else
        let u := {| email := e; password := hashed; name := n |} in
        Ok ((new_id, u), set_users st (<[new_id := u]> (users st)))
  end.

(** [prisma.user.findMany()]: every user, once; the database promises no
    order, the one taken here is that of the map. *)
Definition user_findMany (st : Store) : list (string * User) :=
  map_to_list (users st).

(** [prisma.user.findUnique({ where: { email } })] *)
Definition user_findUnique (email_v : JsValue) (st : Store)
  : Result (option (string * User)) :=
  e ← string_arg email_v;
  Ok (List.find (fun r => String.eqb (email r.2) e) (map_to_list (users st))).

(** [prisma.user.update({ where: { id }, data: { name, email } })] *)
Definition user_update (id_v name_v email_v : JsValue) (st : Store)
  : Result ((string * User) * Store) :=
  i ← string_arg id_v;
  n ← optional_update name_v;
  e ← string_update email_v;
  match users st !! i with
  | None => Throw PrismaRecordNotFound
  | Some u =>
      let taken :=
        match e with
        | Some e' => email_taken e' (map_to_list (delete i (users st)))
        | None => false
        end in
      if taken then Throw PrismaUniqueConstraint
      else
        let u' := {| email := apply_update (email u) e; password := password u;
                     name := apply_update (name u) n |} in
        Ok ((i, u'), set_users st (<[i := u']> (users st)))
  end.

(** What the database does to a job when its owner is deleted and the
    column is nullable: the owner is set to null. *)
Definition disown (a : string) (j : Job) : Job :=
  if passes (Equals a) (userId j)
  then {| title := title j; company := company j; status := status j;
          description := description j; notes := notes j; deadline := deadline j;
          userId := None |}
  else j.

Definition owns_job (a : string) (js : list (string * Job)) : bool :=
  existsb (fun r => passes (Equals a) (userId r.2)) js.

(** [prisma.user.delete({ where: { id } })]. A job refers to its owner, and
    the client applies the referential action that is its default for the
    relation: for a user who owns jobs, [SetNull] where [Job.userId] is
    nullable, and [Restrict], the delete refused, where it is required. *)
Definition user_delete (userId_nullable : bool) (id_v : JsValue) (st : Store)
  : Result Store :=
  i ← string_arg id_v;
  match users st !! i with
  | None => Throw PrismaRecordNotFound
  | Some _ =>
      if owns_job i (map_to_list (jobs st))
      then
        if userId_nullable
        then Ok {| users := delete i (users st); jobs := disown i <$> jobs st |}
        else Throw PrismaForeignKeyConstraint
      else Ok (set_users st (delete i (users st)))
  end.

(** ** Strings, as [authMiddleware] uses them *)

(** [s.split(sep)] for a separator of one character. *)
Fixpoint split_on (sep : ascii) (s : string) : list string :=
  match s with
  | EmptyString => [EmptyString]
  | String c rest =>
      if Ascii.eqb c sep then EmptyString :: split_on sep rest
      else
        match split_on sep rest with
        | [] => [String c EmptyString]
        | w :: ws => String c w :: ws
        end
  end.

(** [s.startsWith(p)] *)
Definition startsWith (s p : string) : bool := String.prefix p s.

(** ** The stages of a route and how Express runs them *)

Inductive StageName : Type :=
| AuthMiddleware | ValidateZod | ValidateZodParam | ValidateZodQuery
| CreateUser | ListUsers | UpdateUser | DeleteUser | LoginUser | Protected
| CreateJob | GetJobs | GetJobById | UpdateJob | DeleteJob.

#[global] Instance StageName_eq_dec : EqDecision StageName.
Proof. solve_decision. Defined.

(** A middleware answers or calls [next()] with the request as it leaves
    it; a handler answers and may write to the database. [Throw] for a
    handler is an error raised outside its [try] block: the handler sends
    nothing itself. *)
Inductive Stage : Type :=
| Middleware (stage : StageName) (run : Request -> Response + Request)
| Handler (stage : StageName) (run : Request -> Store -> Result Response * Store).

Record Outcome : Type := {
  invoked : list StageName;            (* the stages that ran, in order *)
  reply : option (Result Response);    (* None: no stage of the chain answered *)
  store : Store                        (* the database afterwards *)
}.

Fixpoint run_chain (stages : list Stage) (req : Request) (st : Store) : Outcome :=
  match stages with
  | [] => {| invoked := []; reply := None; store := st |}
  | Middleware n run :: rest =>
      match run req with
      | inl r => {| invoked := [n]; reply := Some (Ok r); store := st |}
      | inr req' =>
          let o := run_chain rest req' st in
          {| invoked := n :: invoked o; reply := reply o; store := store o |}
      end
  | Handler n run :: _ =>
      let (r, st') := run req st in
      {| invoked := [n]; reply := Some r; store := st' |}
  end.

(** What a handler does with its [try { ... } catch (error)
    { res.status(500).json({ error: text, details: error }) }]: the client
    writes at most once and last, so a caught error leaves the database as
    it was. *)
Definition try_catch (attempt : Result (Response * Store)) (text : string)
    (st : Store) : Result Response * Store :=
  match attempt with
  | Ok (r, st') => (Ok r, st')
  | Throw e => (Ok (Respond 500 (Failure text e)), st)
  end.

Definition error_body (text : string) : Body :=
  Json (JObj [("error", JStr text)]).

Definition message_body (text : string) : Body :=
  Json (JObj [("message", JStr text)]).

Inductive Route : Type :=
| POST_users | GET_users | PUT_users_id | DELETE_users_id | POST_login
| GET_protected
| POST_jobs | GET_jobs | GET_jobs_id | PUT_jobs_id | DELETE_jobs_id.

Section Application.

Context `{Bcrypt} `{Jwt}.

(** Two parameters of the application: the nullability of [Job.userId] in
    the Prisma schema, and the schema [validation/userSchema.ts] exports. *)
Variable userId_nullable : bool.
Variable userSchema : ZodObject.

(** *** [middleware/authMiddleware.ts] *)

Definition unauthorized : Response := Respond 401 (error_body "Unauthorized").

Definition authMiddleware (env : Env) (req : Request) : Response + Request :=
  match authorization req with
  | None => inl unauthorized
  | Some authHeader =>
      if String.eqb authHeader "" || negb (startsWith authHeader "Bearer ")
      then inl unauthorized
      else
        match split_on " " authHeader !! 1%nat with
        | None => inl unauthorized
        | Some token =>
            match jwt_verify token (JWT_SECRET env) (now env) with
            | Some decoded => inr (set_user req decoded)
            | None => inl unauthorized
            end
        end
  end.

(** *** [controllers/userController.ts] *)

(** [bcrypt.hash(password, 10)] and [bcrypt.compare(password, hash)] throw
    on a password that is not a string. *)
Definition hash_password (env : Env) (password_v : JsValue) : Result string :=
  match password_v with
  | JStr p => Ok (bcrypt_hash (salt env) p 10)
  | _ => Throw BcryptIllegalArguments
  end.

Definition compare_password (password_v : JsValue) (hashed : string) : Result bool :=
  match password_v with
  | JStr p => Ok (bcrypt_compare p hashed)
  | _ => Throw BcryptIllegalArguments
  end.

Definition createUser (env : Env) (req : Request) (st : Store)
  : Result Response * Store :=
  try_catch
    (email_v ← prop (body req) "email";
     password_v ← prop (body req) "password";
     name_v ← prop (body req) "name";
     if negb (truthy email_v) || negb (truthy password_v)
     then Ok (Respond 400 (error_body "Email and password are required."), st)
     else
       hashedPassword ← hash_password env password_v;
       '(u, st') ← user_create (fresh_id env) email_v hashedPassword name_v st;
       Ok (Respond 201 (Json (user_json u)), st'))
    "Failed to create user" st.

Definition listUsers (req : Request) (st : Store) : Result Response * Store :=
  try_catch
    (Ok (Respond 200 (Json (JArr (map user_json (user_findMany st)))), st))
    "Failed to fetch users" st.

Definition updateUser (req : Request) (st : Store) : Result Response * Store :=
  match (id_v ← prop (params req) "id";
         name_v ← prop (body req) "name";
         email_v ← prop (body req) "email";
         Ok (id_v, name_v, email_v)) with
  | Throw e => (Throw e, st)
  | Ok (id_v, name_v, email_v) =>
      try_catch
        ('(u, st') ← user_update id_v name_v email_v st;
         Ok (Respond 200 (Json (user_json u)), st'))
        "Failed to update user" st
  end.

Definition deleteUser (req : Request) (st : Store) : Result Response * Store :=
  match prop (params req) "id" with
  | Throw e => (Throw e, st)
  | Ok id_v =>
      try_catch
        (st' ← user_delete userId_nullable id_v st;
         Ok (Respond 200 (message_body "User deleted"), st'))
        "Failed to delete user" st
  end.

(** [jwt.sign(payload, process.env.JWT_SECRET!, { expiresIn: '1h' })] throws
    when the secret is empty or not set. *)
Definition sign_token (env : Env) (payload : list (string * JsValue)) : Result string :=
  if String.eqb (JWT_SECRET env) "" then Throw JwtSecretMissing
  else Ok (jwt_sign payload (JWT_SECRET env) 3600 (now env)).

Definition loginUser (env : Env) (req : Request) (st : Store)
  : Result Response * Store :=
  match (email_v ← prop (body req) "email";
         password_v ← prop (body req) "password";
         Ok (email_v, password_v)) with
  | Throw e => (Throw e, st)
  | Ok (email_v, password_v) =>
      try_catch
        (found ← user_findUnique email_v st;
         match found with
         | None => Ok (Respond 401 (error_body "Invalid credentials"), st)
         | Some u =>
             isPasswordMatch ← compare_password password_v (password u.2);
             if negb isPasswordMatch
             then Ok (Respond 401 (error_body "Invalid credentials"), st)
             else
               token ← sign_token env [("userId", JStr u.1)];
               Ok (Respond 200 (Json (JObj [("token", JStr token)])), st)
         end)
        "Failed to login" st
  end.

(** The handler written in place for [GET /protected]. *)
Definition protected (req : Request) (st : Store) : Result Response * Store :=
  (Ok (Respond 200 (Json (JObj [("message", JStr "This is a protected route");
                                 ("user", user req)]))), st).

(** *** [controllers/jobController.ts] *)

Definition createJob (env : Env) (req : Request) (st : Store)
  : Result Response * Store :=
  try_catch
    (title_v ← prop (body req) "title";
     description_v ← prop (body req) "description";
     company_v ← prop (body req) "company";
     status_v ← prop (body req) "status";
     userId_v ← prop (user req) "id";
     '(newJob, st') ← job_create userId_nullable (fresh_id env)
                        title_v description_v company_v status_v userId_v st;
     Ok (Respond 201 (Json (job_json newJob)), st'))
    "Failed to create job" st.

Definition getJobs (req : Request) (st : Store) : Result Response * Store :=
  try_catch
    (userId_v ← prop (user req) "id";
     found ← job_findMany userId_nullable userId_v st;
     Ok (Respond 200 (Json (JArr (map job_json found))), st))
    "Failed to fetch jobs" st.

Definition getJobById (req : Request) (st : Store) : Result Response * Store :=
  try_catch
    (id_v ← prop (params req) "id";
     userId_v ← prop (user req) "id";
     job ← job_findFirst userId_nullable id_v userId_v st;
     match job with
     | None => Ok (Respond 404 (error_body "Job not found"), st)
     | Some r => Ok (Respond 200 (Json (job_json r)), st)
     end)
    "Failed to fetch job" st.

Definition updateJob (req : Request) (st : Store) : Result Response * Store :=
  try_catch
    (id_v ← prop (params req) "id";
     title_v ← prop (body req) "title";
     description_v ← prop (body req) "description";
     company_v ← prop (body req) "company";
     status_v ← prop (body req) "status";
     userId_v ← prop (user req) "id";
     job ← job_findFirst userId_nullable id_v userId_v st;
     match job with
     | None => Ok (Respond 404 (error_body "Job not found"), st)
     | Some _ =>
         '(updatedJob, st') ← job_update id_v title_v description_v company_v status_v st;
         Ok (Respond 200 (Json (job_json updatedJob)), st')
     end)
    "Failed to update job" st.

Definition deleteJob (req : Request) (st : Store) : Result Response * Store :=
  try_catch
    (id_v ← prop (params req) "id";
     userId_v ← prop (user req) "id";
     job ← job_findFirst userId_nullable id_v userId_v st;
     match job with
     | None => Ok (Respond 404 (error_body "Job not found"), st)
     | Some _ =>
         st' ← job_delete id_v st;
         Ok (Respond 200 (message_body "Job deleted"), st')
     end)
    "Failed to delete job" st.

(** *** [routes/userRoutes.ts], [routes/jobRoutes.ts] *)

(** The chain of each route; [router.use(authMiddleware)] puts the gate in
    front of every job route. *)
Definition chain (env : Env) (r : Route) : list Stage :=
  match r with
  | POST_users =>
      [ Middleware ValidateZod (validateZod userSchema);
        Handler CreateUser (createUser env) ]
  | GET_users =>
      [ Middleware AuthMiddleware (authMiddleware env);
        Middleware ValidateZodQuery (validateZodQuery userQuerySchema);
        Handler ListUsers listUsers ]
  | PUT_users_id =>
      [ Middleware AuthMiddleware (authMiddleware env);
        Middleware ValidateZodParam (validateZodParam idParamSchema);
        Middleware ValidateZod (validateZod userSchema);
        Handler UpdateUser updateUser ]
  | DELETE_users_id =>
      [ Middleware AuthMiddleware (authMiddleware env);
        Middleware ValidateZodParam (validateZodParam idParamSchema);
        Handler DeleteUser deleteUser ]
  | POST_login =>
      [ Handler LoginUser (loginUser env) ]
  | GET_protected =>
      [ Middleware AuthMiddleware (authMiddleware env);
        Handler Protected protected ]
  | POST_jobs =>
      [ Middleware AuthMiddleware (authMiddleware env);
        Middleware ValidateZod (validateZod jobSchema);
        Handler CreateJob (createJob env) ]
  | GET_jobs =>
      [ Middleware AuthMiddleware (authMiddleware env);
        Handler GetJobs getJobs ]
  | GET_jobs_id =>
      [ Middleware AuthMiddleware (authMiddleware env);
        Handler GetJobById getJobById ]
  | PUT_jobs_id =>
      [ Middleware AuthMiddleware (authMiddleware env);
        Middleware ValidateZod (validateZod jobSchema);
        Handler UpdateJob updateJob ]
  | DELETE_jobs_id =>
      [ Middleware AuthMiddleware (authMiddleware env);
        Handler DeleteJob deleteJob ]
  end.

Definition dispatch (env : Env) (r : Route) (req : Request) (st : Store) : Outcome :=
  run_chain (chain env r) req st.


(** The routes behind [authMiddleware]: all but signup and login. *)
Definition gated (r : Route) : bool :=
  match r with
  | POST_users | POST_login => false
  | _ => true
  end.

(** The last stage of a route. *)
Definition handler_of (r : Route) : StageName :=
  match r with
  | POST_users => CreateUser
  | GET_users => ListUsers
  | PUT_users_id => UpdateUser
  | DELETE_users_id => DeleteUser
  | POST_login => LoginUser
  | GET_protected => Protected
  | POST_jobs => CreateJob
  | GET_jobs => GetJobs
  | GET_jobs_id => GetJobById
  | PUT_jobs_id => UpdateJob
  | DELETE_jobs_id => DeleteJob
  end.

End Application.

(** ** A small world to run the application in *)

Module Sample.

(** Stand-ins for the two libraries, enough to run the handlers: the hash
    of [s] is [s] behind a marker, a token is the user id behind a marker,
    spaces written out so that the token is one word. *)
Definition hash (slt s : string) (rounds : nat) : string := "$2a$" ++ s.

Definition compare (s h : string) : bool := String.eqb h ("$2a$" ++ s).

Definition bcrypt : Bcrypt := {| bcrypt_hash := hash; bcrypt_compare := compare |}.

Fixpoint escape (s : string) : string :=
  match s with
  | EmptyString => EmptyString
  | String c rest =>
      if Ascii.eqb c " " then String "_" (String "s" (escape rest))
      else if Ascii.eqb c "_" then String "_" (String "_" (escape rest))
      else String c (escape rest)
  end.

Fixpoint unescape (s : string) : string :=
  match s with
  | EmptyString => EmptyString
  | String c rest =>
      if Ascii.eqb c "_" then
        match rest with
        | EmptyString => EmptyString
        | String d rest' =>
            String (if Ascii.eqb d "s" then " "%char else d) (unescape rest')
        end
      else String c (unescape rest)
  end.

Fixpoint strip (p s : string) : option string :=
  match p, s with
  | EmptyString, _ => Some s
  | String a p', String b s' => if Ascii.eqb a b then strip p' s' else None
  | String _ _, EmptyString => None
  end.

Definition sign (payload : list (string * JsValue)) (secret : string) (ttl t : Z)
  : string :=
  match payload with
  | [(k, JStr uid)] => if String.eqb k "userId" then "jwt." ++ escape uid else "jwt."
  | _ => "jwt."
  end.

Definition verify (token secret : string) (t : Z) : option JsValue :=
  match strip "jwt." token with
  | Some rest =>
      Some (JObj [("userId", JStr (unescape rest)); ("iat", JNum 0); ("exp", JNum 3600)])
  | None => None
  end.

Definition jwt : Jwt := {| jwt_sign := sign; jwt_verify := verify |}.




Definition env (t : Z) (new_id : string) : Env :=
  {| JWT_SECRET := "secret"; now := t; salt := "salt"; fresh_id := new_id |}.

Definition request (header : option string) (id : string) (b : JsValue) : Request :=
  {| authorization := header; params := JObj [("id", JStr id)];
     query := JObj []; body := b; user := JUndefined |}.

Definition userSchema : ZodObject :=
  [ ("email", ZStringMin 1 "Email is required");
    ("password", ZStringMin 1 "Password is required");
    ("name", ZOptional ZString) ].

Definition empty : Store := {| users := ∅; jobs := ∅ |}.

Definition signup_body : JsValue :=
  JObj [("email", JStr "a@x.com"); ("password", JStr "pw123456")].

Definition job_body (st : string) : JsValue :=
  JObj [("title", JStr "Eng"); ("company", JStr "Acme"); ("status", JStr st)].

Definition job_body_notes : JsValue :=
  JObj [("title", JStr "Eng"); ("company", JStr "Acme"); ("status", JStr "WISHLIST");
        ("notes", JStr "call back"); ("deadline", JStr "2025-01-31")].

(** Two users, and one job of the first. *)
Definition alice : User :=
  {| email := "a@x.com"; password := "$2a$pw123456"; name := None |}.

Definition bob : User :=
  {| email := "b@x.com"; password := "$2a$hunter22"; name := Some "Bob" |}.

Definition alice_job : Job :=
  {| title := "Eng"; company := "Acme"; status := "WISHLIST"; description := None;
     notes := Some "referral"; deadline := None; userId := Some "u1" |}.

Definition two_users : Store :=
  {| users := <["u2" := bob]> (<["u1" := alice]> ∅);
     jobs := <["j1" := alice_job]> ∅ |}.

(** The header a client sends after logging in as the user [uid]. *)
Definition bearer (uid : string) : option string :=
  Some ("Bearer " ++ sign [("userId", JStr uid)] "secret" 3600 0).

End Sample.

(** * Properties *)

(** Case analysis on the scrutinees of a handler, innermost first. *)
Ltac cases :=
  repeat (unfold mbind, Result_bind; simpl;
          match goal with
          | |- context [match ?x with _ => _ end] =>
              lazymatch x with
              | context [match _ with _ => _ end] => fail
              | _ => destruct x eqn:?
              end
          end).

(** ** The validator *)

Lemma parse_shape_issue (shape : ZodObject) (fs : list (string * JsValue))
    (k : string) (t : ZodType) (m : ZodMessage) :
  In (k, t) shape ->
  parse_type t (field fs k) = inl m ->
  In {| path := [k]; message := m |} (parse_shape shape fs).1.
Proof.
  induction shape as [|[k' t'] shape IH]; simpl; [tauto|].
  intros [Heq | Hin] Hm.
  - inversion Heq; subst k' t'.
    destruct (parse_shape shape fs) as [issues data].
    rewrite Hm. simpl. now left.
  - specialize (IH Hin Hm).
    destruct (parse_shape shape fs) as [issues data].
    destruct (parse_type t' (field fs k')) as [m' | v]; simpl in *.
    + now right.
    + destruct v; exact IH.
Qed.

Lemma safeParse_issues (schema : ZodObject) (fs : list (string * JsValue))
    (i : ZodIssue) :
  In i (parse_shape schema fs).1 ->
  safeParse schema (JObj fs) = inl (parse_shape schema fs).1.
Proof.
  unfold safeParse. destruct (parse_shape schema fs) as [[|j issues] data]; simpl.
  - intros [].
  - reflexivity.
Qed.

(** A field of the job body that is absent or empty is refused with its
    own message. *)
Lemma jobSchema_required (k : string) (v : JsValue) :
  k = "title" \/ k = "company" ->
  v = JUndefined \/ v = JStr "" ->
  exists t m, In (k, t) jobSchema /\ parse_type t v = inl m.
Proof.
  intros [-> | ->] [-> | ->].
  - exists (ZStringMin 1 "Title is required"), InvalidType. simpl. tauto.
  - exists (ZStringMin 1 "Title is required"), (Custom "Title is required").
    simpl. tauto.
  - exists (ZStringMin 1 "Company is required"), InvalidType. simpl. tauto.
  - exists (ZStringMin 1 "Company is required"), (Custom "Company is required").
    simpl. tauto.
Qed.

(** The gate changes nothing but [req.user]. *)
Lemma authMiddleware_body `{Jwt} (env : Env) (req req' : Request) :
  authMiddleware env req = inr req' -> body req' = body req.
Proof.
  unfold authMiddleware. intros Hauth.
  destruct (authorization req) as [h|]; [|discriminate].
  destruct (_ || _); [discriminate|].
  destruct (_ !! _) as [token|]; [|discriminate].
  destruct (jwt_verify _ _ _) as [decoded|]; [|discriminate].
  inversion Hauth. reflexivity.
Qed.

(** C4, at the body [{title: "Eng", company: "Acme", status: "REJECTED"}]:
    [jobSchema] spells the fifth status [REJECTEDz], so the
    validator refuses the status REJECTED with an enum issue on [status] and
    answers 400, and it accepts REJECTEDz, a value outside
    WISHLIST, APPLIED, INTERVIEW, OFFER, REJECTED. *)
Theorem jobSchema_REJECTED_refused :
  safeParse jobSchema (Sample.job_body "REJECTED")
  = inl [ {| path := ["status"]; message := InvalidEnumValue |} ]
  /\ validateZod jobSchema (Sample.request None "" (Sample.job_body "REJECTED"))
     = inl (Respond 400 (ValidationErrors
              [ {| entry_path := "status"; entry_message := InvalidEnumValue |} ]))
  /\ safeParse jobSchema (Sample.job_body "REJECTEDz")
     = inr (Sample.job_body "REJECTEDz")
  /\ in_list "REJECTEDz" ["WISHLIST"; "APPLIED"; "INTERVIEW"; "OFFER"; "REJECTED"]
     = false.
Proof. repeat split; reflexivity. Qed.

(** C5: a job body whose [title] or [company] is absent or the empty
    string is answered 400 by [validateZod(jobSchema)], with an entry whose
    path is the name of that field; on [POST /jobs] and [PUT /jobs/:id] the
    handler does not run and the database is left as it was, the answer
    being the 400 once the gate is passed. *)
Theorem validateZod_missing_field (fs : list (string * JsValue)) (k : string)
    (req : Request) :
  k = "title" \/ k = "company" ->
  body req = JObj fs ->
  field fs k = JUndefined \/ field fs k = JStr "" ->
  exists errors,
    validateZod jobSchema req = inl (Respond 400 (ValidationErrors errors))
    /\ (exists e, In e errors /\ entry_path e = k)
    /\ forall (B : Bcrypt) (J : Jwt) (nullable : bool) (userSchema : ZodObject)
         (env : Env) (r : Route) (st : Store),
         r = POST_jobs \/ r = PUT_jobs_id ->
         let o := dispatch nullable userSchema env r req st in
         ~ In (handler_of r) (invoked o)
         /\ store o = st
         /\ reply o = match authMiddleware env req with
                      | inl refusal => Some (Ok refusal)
                      | inr _ => Some (Ok (Respond 400 (ValidationErrors errors)))
                      end.
Proof.
  intros Hk Hbody Hv.
  destruct (jobSchema_required k (field fs k) Hk Hv) as (t & m & Hin & Hm).
  pose proof (parse_shape_issue jobSchema fs k t m Hin Hm) as Hissue.
  pose proof (safeParse_issues jobSchema fs _ Hissue) as Hparse.
  exists (map format_issue (parse_shape jobSchema fs).1).
  assert (Hmw : forall req', body req' = body req ->
            validateZod jobSchema req'
            = inl (Respond 400 (ValidationErrors
                     (map format_issue (parse_shape jobSchema fs).1)))).
  { intros req' Hb. unfold validateZod. rewrite Hb, Hbody, Hparse. reflexivity. }
  split; [now apply Hmw|]. split.
  - exists (format_issue {| path := [k]; message := m |}). split.
    + apply in_map, Hissue.
    + unfold format_issue, join_path. simpl. reflexivity.
  - intros B J nullable userSchema env r st Hr o. subst o.
    unfold dispatch.
    destruct Hr as [-> | ->]; simpl;
      destruct (authMiddleware env req) as [refusal | req'] eqn:Hauth; simpl;
      try (rewrite (Hmw req' (authMiddleware_body env req req' Hauth)); simpl);
      (split; [simpl; intuition discriminate | split; reflexivity]).
Qed.

Lemma validateZod_missing_field_witness :
  let fs := [("company", JStr "Acme"); ("status", JStr "WISHLIST")] in
  field fs "title" = JUndefined
  /\ exists errors,
       validateZod jobSchema (Sample.request None "" (JObj fs))
       = inl (Respond 400 (ValidationErrors errors))
       /\ exists e, In e errors /\ entry_path e = "title".
Proof.
  intros fs. split; [reflexivity|].
  destruct (validateZod_missing_field fs "title" (Sample.request None "" (JObj fs))
              (or_introl eq_refl) eq_refl (or_introl eq_refl))
    as (errors & Hanswer & Hentry & _).
  exists errors. split; [exact Hanswer | exact Hentry].
Defined.

(** ** The gate *)

Lemma split_one_word (s : string) :
  no_space s = true -> split_on " " s = [s].
Proof.
  unfold no_space. induction s as [|c s IH]; simpl; [reflexivity|].
  intros Hs. apply andb_true_iff in Hs as [Hc Hrest].
  apply negb_true_iff in Hc. rewrite Hc, (IH Hrest). reflexivity.
Qed.

Lemma bearer_token (token : string) :
  no_space token = true ->
  split_on " " ("Bearer " ++ token) !! 1%nat = Some token.
Proof.
  intros Hw.
  change ("Bearer " ++ token)
    with (String "B" (String "e" (String "a" (String "r" (String "e"
           (String "r" (String " " token))))))).
  simpl. rewrite (split_one_word token Hw). reflexivity.
Qed.

Lemma bearer_scheme (token : string) :
  String.eqb ("Bearer " ++ token) "" || negb (startsWith ("Bearer " ++ token) "Bearer ")
  = false.
Proof.
  change ("Bearer " ++ token)
    with (String "B" (String "e" (String "a" (String "r" (String "e"
           (String "r" (String " " token))))))).
  unfold startsWith. simpl. destruct token; reflexivity.
Qed.

Lemma authMiddleware_refuses `{Jwt} (env : Env) (req : Request) :
  authorization req = None
  \/ (exists h, authorization req = Some h /\ startsWith h "Bearer " = false)
  \/ (exists h token,
        authorization req = Some h
        /\ split_on " " h !! 1%nat = Some token
        /\ jwt_verify token (JWT_SECRET env) (now env) = None) ->
  authMiddleware env req = inl unauthorized.
Proof.
  unfold authMiddleware.
  intros [Hnone | [(h & Hh & Hscheme) | (h & token & Hh & Htoken & Hverify)]].
  - rewrite Hnone. reflexivity.
  - rewrite Hh, Hscheme. simpl. rewrite orb_true_r. reflexivity.
  - rewrite Hh, Htoken, Hverify. destruct (_ || _); reflexivity.
Qed.

(** The gate lets through the token [loginUser] signs for [uid], for an
    hour, and puts the payload in [req.user]: the [userId] claim and the two
    claims of the library. *)
Lemma authMiddleware_admits `{JwtLaws} (env : Env) (req : Request)
    (uid : string) (t : Z) :
  (t <= now env < t + 3600)%Z ->
  authorization req
  = Some ("Bearer " ++ jwt_sign [("userId", JStr uid)] (JWT_SECRET env) 3600 t) ->
  exists iat exp,
    authMiddleware env req
    = inr (set_user req
             (JObj [("userId", JStr uid); ("iat", JNum iat); ("exp", JNum exp)])).
Proof.
  intros Ht Hh.
  destruct (verify_sign uid (JWT_SECRET env) 3600%Z t (now env) Ht)
    as (iat & exp & Hverify).
  exists iat, exp. unfold authMiddleware. rewrite Hh, bearer_scheme.
  rewrite (bearer_token _ (sign_one_word _ _ _ _)), Hverify.
  reflexivity.
Qed.

(** Every token the application issues carries the id of the user under
    [userId], and under no other name. *)
Lemma loginUser_token `{Bcrypt} `{Jwt} (env : Env) (req : Request) (st st' : Store)
    (payload : Body) :
  loginUser env req st = (Ok (Respond 200 payload), st') ->
  exists uid u,
    users st !! uid = Some u
    /\ payload = Json (JObj [("token",
         JStr (jwt_sign [("userId", JStr uid)] (JWT_SECRET env) 3600 (now env)))]).
Proof.
  unfold loginUser.
  destruct (prop (body req) "email") as [email_v|]; simpl; [|discriminate].
  destruct (prop (body req) "password") as [password_v|]; simpl; [|discriminate].
  unfold user_findUnique.
  destruct (string_arg email_v) as [e|]; simpl; [|discriminate].
  destruct (List.find _ _) as [[uid u]|] eqn:Hfind; simpl; [|discriminate].
  destruct (compare_password password_v (password u)) as [[|]|];
    simpl; try discriminate.
  unfold sign_token. destruct (String.eqb (JWT_SECRET env) ""); simpl;
    [discriminate|].
  intros Heq. inversion Heq; subst. exists uid, u. split; [|reflexivity].
  apply find_some in Hfind as [Hin _].
  apply list_elem_of_In in Hin. now apply elem_of_map_to_list in Hin.
Qed.

(** C6: on every route behind the gate, a request without an
    [Authorization] header, with one that does not start with [Bearer ], or
    whose token does not verify, is answered 401 [{error: "Unauthorized"}],
    the same for the three causes; only the gate has run and the database is
    as it was. *)
Theorem gate_refuses (B : Bcrypt) (J : Jwt) (nullable : bool)
    (userSchema : ZodObject) (env : Env) (r : Route) (req : Request) (st : Store) :
  gated r = true ->
  authorization req = None
  \/ (exists h, authorization req = Some h /\ startsWith h "Bearer " = false)
  \/ (exists h token,
        authorization req = Some h
        /\ split_on " " h !! 1%nat = Some token
        /\ jwt_verify token (JWT_SECRET env) (now env) = None) ->
  dispatch nullable userSchema env r req st
  = {| invoked := [AuthMiddleware];
       reply := Some (Ok (Respond 401 (Json (JObj [("error", JStr "Unauthorized")]))));
       store := st |}.
Proof.
  intros Hgated Hcause.
  pose proof (authMiddleware_refuses env req Hcause) as Hauth.
  unfold dispatch.
  destruct r; try discriminate Hgated; simpl; rewrite Hauth; reflexivity.
Qed.

Lemma gate_refuses_witness :
  let world r h :=
    dispatch (H := Sample.bcrypt) (H0 := Sample.jwt) false Sample.userSchema
      (Sample.env 0 "j2") r (Sample.request h "j1" JUndefined) Sample.two_users in
  let refusal :=
    {| invoked := [AuthMiddleware];
       reply := Some (Ok (Respond 401 (Json (JObj [("error", JStr "Unauthorized")]))));
       store := Sample.two_users |} in
  world GET_jobs None = refusal
  /\ world DELETE_jobs_id (Some "Basic dTE6cHc=") = refusal
  /\ world GET_users (Some "Bearer forged") = refusal.
Proof.
  intros world refusal. split; [|split].
  - apply gate_refuses; [reflexivity|]. left. reflexivity.
  - apply gate_refuses; [reflexivity|]. right. left.
    exists "Basic dTE6cHc=". split; reflexivity.
  - apply gate_refuses; [reflexivity|]. right. right.
    exists "Bearer forged", "forged". split; [|split]; reflexivity.
Defined.

(** ** The stand-in libraries keep the contracts *)

Lemma sample_bcrypt_laws : @BcryptLaws Sample.bcrypt.
Proof.
  split; simpl; unfold Sample.compare, Sample.hash.
  - intros _ s _. apply String.eqb_refl.
  - intros _ s _ Heq. apply (f_equal String.length) in Heq.
    change ("$2a$" ++ s) with (String "$" (String "2" (String "a" (String "$" s)))) in Heq.
    simpl in Heq. lia.
Qed.

Lemma unescape_escape (s : string) : Sample.unescape (Sample.escape s) = s.
Proof.
  induction s as [|c s IH]; simpl; [reflexivity|].
  destruct (Ascii.eqb c " ") eqn:Hsp.
  - apply Ascii.eqb_eq in Hsp. subst c. simpl. now rewrite IH.
  - destruct (Ascii.eqb c "_") eqn:Hus.
    + apply Ascii.eqb_eq in Hus. subst c. simpl. now rewrite IH.
    + simpl. rewrite Hus. now rewrite IH.
Qed.

Lemma no_space_escape (s : string) : no_space (Sample.escape s) = true.
Proof.
  unfold no_space. induction s as [|c s IH]; simpl; [reflexivity|].
  destruct (Ascii.eqb c " ") eqn:Hsp; [exact IH|].
  destruct (Ascii.eqb c "_") eqn:Hus; [exact IH|].
  simpl. rewrite Hsp. exact IH.
Qed.

Lemma no_space_token (uid : string) : no_space ("jwt." ++ Sample.escape uid) = true.
Proof.
  change ("jwt." ++ Sample.escape uid)
    with (String "j" (String "w" (String "t" (String "." (Sample.escape uid))))).
  pose proof (no_space_escape uid) as Hw. unfold no_space in *. simpl. exact Hw.
Qed.

Lemma sample_jwt_laws : @JwtLaws Sample.jwt.
Proof.
  split; simpl.
  - intros uid secret ttl t t' _. exists 0%Z, 3600%Z.
    unfold Sample.verify, Sample.sign.
    change (if String.eqb "userId" "userId" then "jwt." ++ Sample.escape uid else "jwt.")
      with (String "j" (String "w" (String "t" (String "." (Sample.escape uid))))).
    simpl. change ("" ++ Sample.escape uid) with (Sample.escape uid).
    now rewrite unescape_escape.
  - intros payload secret ttl t. unfold Sample.sign.
    destruct payload as [|[k v] rest]; [reflexivity|].
    destruct v; try reflexivity.
    destruct rest; [|reflexivity].
    destruct (String.eqb k "userId"); [apply no_space_token | reflexivity].
Qed.


(** ** Looking records up *)

Lemma find_by_id {A : Type} (m : gmap string A) (i : string) (p : A -> bool) :
  List.find (fun r => passes (Equals i) (Some r.1) && p r.2) (map_to_list m)
  = match m !! i with
    | Some a => if p a then Some (i, a) else None
    | None => None
    end.
Proof.
  destruct (List.find _ _) as [[k a]|] eqn:Hfind.
  - apply find_some in Hfind as [Hin Hp]. simpl in Hp.
    apply andb_true_iff in Hp as [Hk Hp]. apply String.eqb_eq in Hk. subst k.
    apply list_elem_of_In, elem_of_map_to_list in Hin. now rewrite Hin, Hp.
  - destruct (m !! i) as [a|] eqn:Hlookup; [|reflexivity].
    destruct (p a) eqn:Hp; [|reflexivity].
    apply elem_of_map_to_list, list_elem_of_In in Hlookup.
    pose proof (find_none _ _ Hfind _ Hlookup) as Hno. simpl in Hno.
    now rewrite String.eqb_refl, Hp in Hno.
Qed.

Lemma filter_everything {A : Type} (l : list A) :
  List.filter (fun _ => true) l = l.
Proof. induction l as [|a l IH]; simpl; [reflexivity | now rewrite IH]. Qed.

(** Of a list in which only [x] satisfies [p], [find] returns [x]. *)
Lemma find_only {A : Type} (p : A -> bool) (l : list A) (x : A) :
  In x l -> p x = true -> (forall y, In y l -> p y = true -> y = x) ->
  List.find p l = Some x.
Proof.
  intros Hin Hp Honly. destruct (List.find p l) as [y|] eqn:Hfind.
  - apply find_some in Hfind as [Hy Hpy]. now rewrite (Honly y Hy Hpy).
  - pose proof (find_none _ _ Hfind _ Hin) as Hno. congruence.
Qed.

Lemma job_findFirst_id (nullable : bool) (i : string) (userId_v : JsValue)
    (st : Store) (fu : Filter) :
  string_filter nullable userId_v = Ok fu ->
  job_findFirst nullable (JStr i) userId_v st
  = Ok match jobs st !! i with
       | Some j => if passes fu (userId j) then Some (i, j) else None
       | None => None
       end.
Proof.
  intros Hfu. unfold job_findFirst. rewrite Hfu.
  change (string_filter false (JStr i)) with (Ok (Equals i)).
  unfold mbind, Result_bind. f_equal.
  apply (find_by_id (jobs st) i (fun j => passes fu (userId j))).
Qed.

Lemma job_findFirst_throw (nullable : bool) (i : string) (userId_v : JsValue)
    (st : Store) (e : Thrown) :
  string_filter nullable userId_v = Throw e ->
  job_findFirst nullable (JStr i) userId_v st = Throw e.
Proof. intros Hfu. unfold job_findFirst. simpl. now rewrite Hfu. Qed.

#[local] Opaque job_findFirst.

(** ** What a logged-in caller gets: [req.user.id] is undefined

    [loginUser] signs [{ userId: user.id }]; the job handlers read
    [req.user.id]. *)



(** C2, at [GET /jobs] sent with the token [loginUser] issued for [uid]:
    the handler gives [userId: undefined] to [prisma.job.findMany], which
    then has no condition, and the answer lists every job of the database,
    whoever owns it. *)
Theorem getJobs_after_login {B : Bcrypt} `{L : JwtLaws} (nullable : bool)
    (userSchema : ZodObject) (env : Env) (req : Request) (st : Store)
    (uid : string) (t : Z) :
  (t <= now env < t + 3600)%Z ->
  authorization req
  = Some ("Bearer " ++ jwt_sign [("userId", JStr uid)] (JWT_SECRET env) 3600 t) ->
  dispatch nullable userSchema env GET_jobs req st
  = {| invoked := [AuthMiddleware; GetJobs];
       reply := Some (Ok (Respond 200
                  (Json (JArr (map job_json (map_to_list (jobs st)))))));
       store := st |}.
Proof.
  intros Ht Hh.
  destruct (authMiddleware_admits env req uid t Ht Hh) as (iat & exp & Hauth).
  unfold dispatch. simpl. rewrite Hauth.
  unfold getJobs, job_findMany. simpl. rewrite filter_everything. reflexivity.
Qed.

Lemma getJobs_after_login_witness :
  reply (dispatch (H := Sample.bcrypt) (H0 := Sample.jwt) false Sample.userSchema
           (Sample.env 10 "j2") GET_jobs
           (Sample.request (Sample.bearer "u2") "" JUndefined) Sample.two_users)
  = Some (Ok (Respond 200 (Json (JArr [job_json ("j1", Sample.alice_job)])))).
Proof.
  rewrite (getJobs_after_login (B := Sample.bcrypt) (L := sample_jwt_laws)
             false Sample.userSchema (Sample.env 10 "j2") _ _ "u2" 0%Z);
    [reflexivity | simpl; lia | reflexivity].
Defined.

(** C3, at a job [id] of the user [a] and the token [loginUser] issued
    for another user [b]: the handlers give [userId: undefined] to
    [prisma.job.findFirst], which then looks for the id alone. [GET
    /jobs/:id] answers 200 with the job of [a], [PUT /jobs/:id] answers 200
    and rewrites it, [DELETE /jobs/:id] answers 200 and removes it; none
    answers 404. *)
Theorem foreign_job_open {B : Bcrypt} `{L : JwtLaws} (nullable : bool)
    (userSchema : ZodObject) (env : Env) (req : Request) (st : Store)
    (a b id : string) (j : Job) (t : Z) :
  (t <= now env < t + 3600)%Z ->
  authorization req
  = Some ("Bearer " ++ jwt_sign [("userId", JStr b)] (JWT_SECRET env) 3600 t) ->
  params req = JObj [("id", JStr id)] ->
  a <> b ->
  jobs st !! id = Some j ->
  userId j = Some a ->
  let edited :=
    {| title := "Eng"; company := "Acme"; status := "APPLIED";
       description := description j; notes := notes j; deadline := deadline j;
       userId := Some a |} in
  dispatch nullable userSchema env GET_jobs_id req st
  = {| invoked := [AuthMiddleware; GetJobById];
       reply := Some (Ok (Respond 200 (Json (job_json (id, j)))));
       store := st |}
  /\ dispatch nullable userSchema env PUT_jobs_id
       (set_body req (Sample.job_body "APPLIED")) st
     = {| invoked := [AuthMiddleware; ValidateZod; UpdateJob];
          reply := Some (Ok (Respond 200 (Json (job_json (id, edited)))));
          store := set_jobs st (<[id := edited]> (jobs st)) |}
  /\ dispatch nullable userSchema env DELETE_jobs_id req st
     = {| invoked := [AuthMiddleware; DeleteJob];
          reply := Some (Ok (Respond 200 (Json (JObj [("message", JStr "Job deleted")]))));
          store := set_jobs st (delete id (jobs st)) |}.
Proof.
  intros Ht Hh Hparams Hab Hj Howner edited.
  destruct (authMiddleware_admits env req b t Ht Hh) as (iat & exp & Hauth).
  destruct (authMiddleware_admits env (set_body req (Sample.job_body "APPLIED"))
              b t Ht Hh) as (iat' & exp' & Hauth').
  assert (Hfind : job_findFirst nullable (JStr id) JUndefined st = Ok (Some (id, j))).
  { rewrite (job_findFirst_id nullable id JUndefined st Unfiltered eq_refl).
    now rewrite Hj. }
  unfold dispatch. simpl. rewrite Hauth, Hauth'.
  split; [|split].
  - unfold getJobById. simpl. rewrite Hparams. simpl. rewrite Hfind. reflexivity.
  - unfold validateZod. simpl.
    unfold updateJob, job_update. simpl. rewrite Hparams. simpl.
    rewrite Hfind. simpl. rewrite Hj.
    subst edited. rewrite <- Howner. reflexivity.
  - unfold deleteJob, job_delete. simpl. rewrite Hparams. simpl.
    rewrite Hfind. simpl. rewrite Hj. reflexivity.
Qed.

Lemma foreign_job_open_witness :
  let world r :=
    dispatch (H := Sample.bcrypt) (H0 := Sample.jwt) false Sample.userSchema
      (Sample.env 10 "j2") r
      (Sample.request (Sample.bearer "u2") "j1" JUndefined) Sample.two_users in
  reply (world GET_jobs_id)
  = Some (Ok (Respond 200 (Json (job_json ("j1", Sample.alice_job)))))
  /\ reply (world DELETE_jobs_id)
     = Some (Ok (Respond 200 (Json (JObj [("message", JStr "Job deleted")]))))
  /\ jobs (store (world DELETE_jobs_id)) !! "j1" = None.
Proof.
  intros world. subst world.
  destruct (foreign_job_open (B := Sample.bcrypt) (L := sample_jwt_laws)
              false Sample.userSchema (Sample.env 10 "j2")
              (Sample.request (Sample.bearer "u2") "j1" JUndefined) Sample.two_users
              "u1" "u2" "j1" Sample.alice_job 0%Z)
    as (Hget & _ & Hdelete);
    [simpl; lia | reflexivity | reflexivity | discriminate | reflexivity
    | reflexivity |].
  rewrite Hget, Hdelete. split; [|split]; reflexivity.
Defined.

(** ** Deleting a job *)

(** The gate answers nothing but the 401. *)
Lemma authMiddleware_inl `{Jwt} (env : Env) (req : Request) (r : Response) :
  authMiddleware env req = inl r -> r = unauthorized.
Proof.
  unfold authMiddleware.
  destruct (authorization req) as [h|]; [|congruence].
  destruct (_ || _); [congruence|].
  destruct (_ !! _) as [token|]; [|congruence].
  destruct (jwt_verify _ _ _) as [decoded|]; congruence.
Qed.

Lemma deleteJob_then_gone (nullable : bool) (req : Request) (st st' : Store)
    (payload : Body) :
  deleteJob nullable req st = (Ok (Respond 200 payload), st') ->
  deleteJob nullable req st' = (Ok (Respond 404 (error_body "Job not found")), st').
Proof.
  unfold deleteJob.
  destruct (prop (params req) "id") as [id_v|]; simpl; [|discriminate].
  destruct (prop (user req) "id") as [userId_v|]; simpl; [|discriminate].
  destruct id_v as [| | | |i| |];
    try (destruct (job_findFirst _ _ _ _) as [[r|]|]; simpl; discriminate).
  destruct (string_filter nullable userId_v) as [fu|e] eqn:Hfu.
  - rewrite !(job_findFirst_id nullable i userId_v _ fu Hfu). simpl.
    unfold job_delete. simpl.
    destruct (jobs st !! i) as [j|] eqn:Hj; simpl; [|discriminate].
    destruct (passes fu (userId j)); simpl; [|discriminate].
    intros Heq. inversion Heq; subst. simpl.
    rewrite lookup_delete_eq. reflexivity.
  - rewrite (job_findFirst_throw nullable i userId_v st e Hfu). simpl. discriminate.
Qed.

(** C7: when [DELETE /jobs/:id] has answered 200 and the caller sends the
    same request again, admitted by the gate as the first time and with
    nothing done to the database in between, the answer is 404
    [{error: "Job not found"}] and the database is left as it was. *)
Theorem deleteJob_twice (B : Bcrypt) (J : Jwt) (nullable : bool)
    (userSchema : ZodObject) (env env' : Env) (req : Request) (st : Store)
    (payload : Body) :
  authMiddleware env' req = authMiddleware env req ->
  reply (dispatch nullable userSchema env DELETE_jobs_id req st)
  = Some (Ok (Respond 200 payload)) ->
  dispatch nullable userSchema env' DELETE_jobs_id req
    (store (dispatch nullable userSchema env DELETE_jobs_id req st))
  = {| invoked := [AuthMiddleware; DeleteJob];
       reply := Some (Ok (Respond 404 (Json (JObj [("error", JStr "Job not found")]))));
       store := store (dispatch nullable userSchema env DELETE_jobs_id req st) |}.
Proof.
  intros Hsame. unfold dispatch. simpl. rewrite Hsame.
  destruct (authMiddleware env req) as [refusal | req'] eqn:Hauth; simpl.
  - rewrite (authMiddleware_inl env req refusal Hauth). discriminate.
  - destruct (deleteJob nullable req' st) as [r st'] eqn:Hdel. simpl.
    intros Hr. inversion Hr; subst r.
    rewrite (deleteJob_then_gone nullable req' st st' payload Hdel). reflexivity.
Qed.

Lemma deleteJob_twice_witness :
  let world :=
    dispatch (H := Sample.bcrypt) (H0 := Sample.jwt) false Sample.userSchema
      (Sample.env 10 "j2") DELETE_jobs_id
      (Sample.request (Sample.bearer "u1") "j1" JUndefined) in
  reply (world Sample.two_users)
  = Some (Ok (Respond 200 (Json (JObj [("message", JStr "Job deleted")]))))
  /\ reply (world (store (world Sample.two_users)))
     = Some (Ok (Respond 404 (Json (JObj [("error", JStr "Job not found")])))).
Proof.
  intros world. subst world. split; [vm_compute; reflexivity|].
  rewrite (deleteJob_twice Sample.bcrypt Sample.jwt false Sample.userSchema
             (Sample.env 10 "j2") (Sample.env 10 "j2") _ Sample.two_users
             (Json (JObj [("message", JStr "Job deleted")])));
    [reflexivity | reflexivity | vm_compute; reflexivity].
Defined.

(** ** Signing up and logging in *)

Lemma parse_type_keeps (t : ZodType) (v v' : JsValue) :
  parse_type t v = inr v' -> v' = v.
Proof.
  induction t as [| n text | values | inner IH]; simpl.
  - destruct v; congruence.
  - destruct v; try congruence. destruct (_ <? _)%nat; congruence.
  - destruct v; try congruence. destruct (in_list _ _); congruence.
  - destruct v; try congruence; exact IH.
Qed.

Lemma parse_shape_field (shape : ZodObject) (fs : list (string * JsValue))
    (k : string) :
  field (parse_shape shape fs).2 k = JUndefined
  \/ field (parse_shape shape fs).2 k = field fs k.
Proof.
  induction shape as [|[k' t] shape IH]; simpl; [now left|].
  destruct (parse_shape shape fs) as [issues data]. simpl in IH.
  destruct (parse_type t (field fs k')) as [m|v] eqn:Hparse; simpl; [exact IH|].
  apply parse_type_keeps in Hparse. subst v.
  destruct (field fs k') eqn:Hv; simpl; try exact IH;
    (destruct (String.eqb k' k) eqn:Hk; [|exact IH]);
    apply String.eqb_eq in Hk; subst k'; right; now rewrite Hv.
Qed.

Lemma validateZod_body (schema : ZodObject) (req req' : Request) :
  validateZod schema req = inr req' ->
  exists fs data,
    body req = JObj fs /\ body req' = JObj data
    /\ forall k, field data k = JUndefined \/ field data k = field fs k.
Proof.
  unfold validateZod, safeParse.
  destruct (body req) as [| | | | | |fs]; try discriminate.
  pose proof (parse_shape_field schema fs) as Hfield.
  destruct (parse_shape schema fs) as [[|i issues] data]; [|discriminate].
  intros Heq. inversion Heq. exists fs, data. simpl. auto.
Qed.


Lemma createUser_created `{Bcrypt} (env : Env) (req : Request) (st st' : Store)
    (payload : Body) :
  createUser env req st = (Ok (Respond 201 payload), st') ->
  exists e p n,
    prop (body req) "email" = Ok (JStr e)
    /\ prop (body req) "password" = Ok (JStr p)
    /\ users st !! fresh_id env = None
    /\ email_taken e (map_to_list (users st)) = false
    /\ let u := {| email := e; password := bcrypt_hash (salt env) p 10; name := n |} in
       payload = Json (user_json (fresh_id env, u))
       /\ st' = set_users st (<[fresh_id env := u]> (users st)).
Proof.
  unfold createUser, try_catch, user_create, hash_password.
  destruct (prop (body req) "email") as [email_v|]; simpl; [|discriminate].
  destruct (prop (body req) "password") as [password_v|]; simpl; [|discriminate].
  destruct (prop (body req) "name") as [name_v|]; simpl; [|discriminate].
  destruct (negb (truthy email_v) || negb (truthy password_v)); [discriminate|].
  destruct password_v as [| | | |p| |]; simpl; try discriminate.
  destruct email_v as [| | | |e| |]; simpl; try discriminate.
  destruct (optional_arg name_v) as [n|]; simpl; [|discriminate].
  destruct (users st !! fresh_id env) eqn:Hfresh; simpl; [discriminate|].
  destruct (email_taken e (map_to_list (users st))) eqn:Htaken; simpl; [discriminate|].
  intros Heq. inversion Heq; subst. exists e, p, n. auto 10.
Qed.

Lemma user_findUnique_created (st : Store) (i : string) (u : User) :
  users st !! i = None ->
  email_taken (email u) (map_to_list (users st)) = false ->
  user_findUnique (JStr (email u)) (set_users st (<[i := u]> (users st)))
  = Ok (Some (i, u)).
Proof.
  intros Hfresh Htaken. unfold user_findUnique. simpl. f_equal.
  apply find_only.
  - apply list_elem_of_In, elem_of_map_to_list, lookup_insert_eq.
  - apply String.eqb_refl.
  - intros [k u'] Hin Hp. simpl in Hp.
    apply list_elem_of_In, elem_of_map_to_list in Hin.
    destruct (decide (i = k)) as [->|Hne].
    + rewrite lookup_insert_eq in Hin. congruence.
    + rewrite lookup_insert_ne in Hin by done.
      apply elem_of_map_to_list, list_elem_of_In in Hin.
      assert (email_taken (email u) (map_to_list (users st)) = true); [|congruence].
      apply existsb_exists. exists (k, u'). auto.
Qed.

Lemma validateZod_inl (schema : ZodObject) (req : Request) (r : Response) :
  validateZod schema req = inl r -> code_of r = 400.
Proof.
  unfold validateZod. destruct (safeParse schema (body req)); [|discriminate].
  intros Heq. inversion Heq. reflexivity.
Qed.

Lemma validateZod_prop (schema : ZodObject) (req req' : Request) (k s : string) :
  validateZod schema req = inr req' ->
  prop (body req') k = Ok (JStr s) ->
  prop (body req) k = Ok (JStr s).
Proof.
  intros Hv Hk.
  destruct (validateZod_body schema req req' Hv) as (fs & data & Hfs & Hdata & Hfield).
  rewrite Hfs. rewrite Hdata in Hk. simpl in *.
  destruct (Hfield k) as [Hu | Hsame]; congruence.
Qed.

(** C8: when [POST /users] has answered 201, the request carried an email
    and a password that are strings, the password stored for the new user is
    the bcrypt hash and not the password sent, [bcrypt.compare] of the
    password sent and the stored one is true, and [POST /login] with the same
    email and password then answers 200 with a token for the new user
    wherever [JWT_SECRET] is set and not empty. *)
Theorem stored_password_hashed `{LB : BcryptLaws} {J : Jwt} (nullable : bool)
    (userSchema : ZodObject) (env : Env) (req : Request) (st : Store)
    (payload : Body) :
  let o := dispatch nullable userSchema env POST_users req st in
  reply o = Some (Ok (Respond 201 payload)) ->
  exists e p u,
    prop (body req) "email" = Ok (JStr e)
    /\ prop (body req) "password" = Ok (JStr p)
    /\ users (store o) !! fresh_id env = Some u
    /\ email u = e
    /\ password u <> p
    /\ bcrypt_compare p (password u) = true
    /\ forall env' req',
         JWT_SECRET env' <> "" ->
         prop (body req') "email" = Ok (JStr e) ->
         prop (body req') "password" = Ok (JStr p) ->
         dispatch nullable userSchema env' POST_login req' (store o)
         = {| invoked := [LoginUser];
              reply := Some (Ok (Respond 200 (Json (JObj [("token",
                         JStr (jwt_sign [("userId", JStr (fresh_id env))]
                                 (JWT_SECRET env') 3600 (now env')))]))));
              store := store o |}.
Proof.
  intros o. subst o. unfold dispatch. simpl.
  destruct (validateZod userSchema req) as [refusal | req'] eqn:Hv; simpl.
  - intros Hr. apply validateZod_inl in Hv. inversion Hr; subst. discriminate.
  - destruct (createUser env req' st) as [r st'] eqn:Hc. simpl.
    intros Hr. inversion Hr; subst r.
    apply createUser_created in Hc
      as (e & p & n & He & Hp & Hfresh & Htaken & Hpayload & Hst').
    exists e, p, {| email := e; password := bcrypt_hash (salt env) p 10; name := n |}.
    split; [exact (validateZod_prop _ _ _ _ _ Hv He)|].
    split; [exact (validateZod_prop _ _ _ _ _ Hv Hp)|].
    subst st'. simpl. rewrite lookup_insert_eq.
    split; [reflexivity|]. split; [reflexivity|].
    split; [apply hash_differs|]. split; [apply compare_hash|].
    intros env2 req2 Hsecret He2 Hp2.
    pose proof (user_findUnique_created st (fresh_id env)
                  {| email := e; password := bcrypt_hash (salt env) p 10; name := n |}
                  Hfresh Htaken) as Hfind.
    unfold user_findUnique in Hfind. simpl in Hfind. injection Hfind as Hfind.
    apply String.eqb_neq in Hsecret.
    unfold loginUser, user_findUnique, sign_token. rewrite He2, Hp2. simpl.
    rewrite Hfind. simpl. rewrite compare_hash. rewrite Hsecret. reflexivity.
Qed.

(** C10: the 201 of [POST /users] is the whole record of the user as it
    is stored, and [GET /users], for a request the gate admits and whose query
    is an object, answers 200 with the whole record of every user of the
    database, each once and in whatever order the database returns them: id,
    email, name and the stored password hash. *)
Theorem user_responses_whole (B : Bcrypt) (J : Jwt) (nullable : bool)
    (userSchema : ZodObject) (env : Env) (req : Request) (st : Store) :
  let whole (r : string * User) :=
    JObj [ ("id", JStr r.1); ("email", JStr (email r.2));
           ("password", JStr (password r.2)); ("name", opt_json (name r.2)) ] in
  (forall payload,
     reply (dispatch nullable userSchema env POST_users req st)
     = Some (Ok (Respond 201 payload)) ->
     exists u,
       users (store (dispatch nullable userSchema env POST_users req st))
         !! fresh_id env = Some u
       /\ payload = Json (whole (fresh_id env, u)))
  /\ (forall req1 req2,
        authMiddleware env req = inr req1 ->
        validateZodQuery userQuerySchema req1 = inr req2 ->
        exists found,
          found ≡ₚ map_to_list (users st)
          /\ dispatch nullable userSchema env GET_users req st
             = {| invoked := [AuthMiddleware; ValidateZodQuery; ListUsers];
                  reply := Some (Ok (Respond 200 (Json (JArr (map whole found)))));
                  store := st |}).
Proof.
  intros whole. unfold dispatch. simpl. split.
  - intros payload.
    destruct (validateZod userSchema req) as [refusal | req'] eqn:Hv; simpl.
    + intros Hr. apply validateZod_inl in Hv. inversion Hr; subst. discriminate.
    + destruct (createUser env req' st) as [r st'] eqn:Hc. simpl.
      intros Hr. inversion Hr; subst r.
      apply createUser_created in Hc
        as (e & p & n & _ & _ & _ & _ & Hpayload & Hst').
      subst st'. simpl. rewrite lookup_insert_eq. eexists. split; [reflexivity|].
      exact Hpayload.
  - intros req1 req2 Hauth Hq. rewrite Hauth. simpl. rewrite Hq. simpl.
    exists (user_findMany st). split; [reflexivity|]. reflexivity.
Qed.

Lemma stored_password_hashed_witness :
  let o :=
    dispatch (H := Sample.bcrypt) (H0 := Sample.jwt) false Sample.userSchema
      (Sample.env 10 "u1") POST_users (Sample.request None "" Sample.signup_body)
      Sample.empty in
  reply o = Some (Ok (Respond 201 (Json (user_json ("u1", Sample.alice)))))
  /\ exists u,
       users (store o) !! "u1" = Some u
       /\ password u <> "pw123456"
       /\ Sample.compare "pw123456" (password u) = true
       /\ reply (dispatch (H := Sample.bcrypt) (H0 := Sample.jwt) false
                   Sample.userSchema (Sample.env 20 "u2") POST_login
                   (Sample.request None "" Sample.signup_body) (store o))
          = Some (Ok (Respond 200 (Json (JObj [("token", JStr "jwt.u1")])))).
Proof.
  intros o.
  assert (Hcreated : reply o
                     = Some (Ok (Respond 201 (Json (user_json ("u1", Sample.alice))))))
    by (vm_compute; reflexivity).
  split; [exact Hcreated|].
  destruct (stored_password_hashed (LB := sample_bcrypt_laws) (J := Sample.jwt)
              false Sample.userSchema (Sample.env 10 "u1")
              (Sample.request None "" Sample.signup_body) Sample.empty _ Hcreated)
    as (e & p & u & He & Hp & Hu & _ & Hdiffers & Hcompare & Hlogin).
  injection He as <-. injection Hp as <-. exists u.
  split; [exact Hu|]. split; [exact Hdiffers|]. split; [exact Hcompare|].
  unfold o.
  rewrite (Hlogin (Sample.env 20 "u2") (Sample.request None "" Sample.signup_body));
    [reflexivity | discriminate | reflexivity | reflexivity].
Defined.

Lemma user_responses_whole_witness :
  (exists u,
     users (store (dispatch (H := Sample.bcrypt) (H0 := Sample.jwt) false
                     Sample.userSchema (Sample.env 10 "u1") POST_users
                     (Sample.request None "" Sample.signup_body) Sample.empty))
       !! "u1" = Some u
     /\ Json (user_json ("u1", Sample.alice))
        = Json (JObj [ ("id", JStr "u1"); ("email", JStr (email u));
                       ("password", JStr (password u)); ("name", opt_json (name u)) ]))
  /\ (exists found,
        found ≡ₚ [("u1", Sample.alice); ("u2", Sample.bob)]
        /\ reply (dispatch (H := Sample.bcrypt) (H0 := Sample.jwt) false
                    Sample.userSchema (Sample.env 10 "u3") GET_users
                    (Sample.request (Sample.bearer "u1") "" JUndefined)
                    Sample.two_users)
           = Some (Ok (Respond 200 (Json (JArr (map user_json found)))))).
Proof.
  split.
  - apply (proj1 (user_responses_whole Sample.bcrypt Sample.jwt false
                    Sample.userSchema (Sample.env 10 "u1")
                    (Sample.request None "" Sample.signup_body) Sample.empty)).
    vm_compute. reflexivity.
  - destruct (proj2 (user_responses_whole Sample.bcrypt Sample.jwt false
                       Sample.userSchema (Sample.env 10 "u3")
                       (Sample.request (Sample.bearer "u1") "" JUndefined)
                       Sample.two_users) _ _ eq_refl eq_refl)
      as (found & Hfound & Hreply).
    exists found. split.
    + rewrite Hfound. vm_compute. reflexivity.
    + rewrite Hreply. reflexivity.
Defined.

(** ** What the job handlers write *)


Lemma createJob_store (nullable : bool) (env : Env) (req : Request) (st st' : Store)
    (r : Result Response) :
  createJob nullable env req st = (r, st') ->
  st' = st
  \/ exists j,
       jobs st !! fresh_id env = None
       /\ notes j = None /\ deadline j = None
       /\ st' = set_jobs st (<[fresh_id env := j]> (jobs st)).
Proof.
  unfold createJob, try_catch.
  destruct (prop (body req) "title") as [title_v|]; simpl; [|intros [= _ <-]; now left].
  destruct (prop (body req) "description") as [description_v|]; simpl;
    [|intros [= _ <-]; now left].
  destruct (prop (body req) "company") as [company_v|]; simpl;
    [|intros [= _ <-]; now left].
  destruct (prop (body req) "status") as [status_v|]; simpl;
    [|intros [= _ <-]; now left].
  destruct (prop (user req) "id") as [userId_v|]; simpl; [|intros [= _ <-]; now left].
  unfold job_create.
  destruct (string_arg title_v) as [t|]; simpl; [|intros [= _ <-]; now left].
  destruct (optional_arg description_v) as [d|]; simpl; [|intros [= _ <-]; now left].
  destruct (string_arg company_v) as [c|]; simpl; [|intros [= _ <-]; now left].
  destruct (string_arg status_v) as [s|]; simpl; [|intros [= _ <-]; now left].
  destruct (owner_arg nullable userId_v) as [u|]; simpl; [|intros [= _ <-]; now left].
  destruct (jobs st !! fresh_id env) eqn:Hfresh; simpl; [intros [= _ <-]; now left|].
  intros [= _ <-]. right.
  exists {| title := t; company := c; status := s; description := d;
            notes := None; deadline := None; userId := u |}.
  repeat split.
Qed.

Lemma updateJob_store (nullable : bool) (req : Request) (st st' : Store)
    (r : Result Response) :
  updateJob nullable req st = (r, st') ->
  st' = st
  \/ exists i j j',
       jobs st !! i = Some j
       /\ notes j' = notes j /\ deadline j' = deadline j /\ userId j' = userId j
       /\ st' = set_jobs st (<[i := j']> (jobs st)).
Proof.
  unfold updateJob, try_catch.
  destruct (prop (params req) "id") as [id_v|]; simpl; [|intros [= _ <-]; now left].
  destruct (prop (body req) "title") as [title_v|]; simpl; [|intros [= _ <-]; now left].
  destruct (prop (body req) "description") as [description_v|]; simpl;
    [|intros [= _ <-]; now left].
  destruct (prop (body req) "company") as [company_v|]; simpl;
    [|intros [= _ <-]; now left].
  destruct (prop (body req) "status") as [status_v|]; simpl;
    [|intros [= _ <-]; now left].
  destruct (prop (user req) "id") as [userId_v|]; simpl; [|intros [= _ <-]; now left].
  destruct (job_findFirst nullable id_v userId_v st) as [[found|]|]; simpl;
    [|intros [= _ <-]; now left|intros [= _ <-]; now left].
  unfold job_update.
  destruct (string_arg id_v) as [i|]; simpl; [|intros [= _ <-]; now left].
  destruct (string_update title_v) as [t|]; simpl; [|intros [= _ <-]; now left].
  destruct (optional_update description_v) as [d|]; simpl; [|intros [= _ <-]; now left].
  destruct (string_update company_v) as [c|]; simpl; [|intros [= _ <-]; now left].
  destruct (string_update status_v) as [s|]; simpl; [|intros [= _ <-]; now left].
  destruct (jobs st !! i) as [j|] eqn:Hj; simpl; [|intros [= _ <-]; now left].
  intros [= _ <-]. right.
  exists i, j, {| title := apply_update (title j) t;
                  company := apply_update (company j) c;
                  status := apply_update (status j) s;
                  description := apply_update (description j) d;
                  notes := notes j; deadline := deadline j; userId := userId j |}.
  repeat split; try reflexivity; try assumption.
Qed.

(** C9: after [POST /jobs] or [PUT /jobs/:id], whatever the body holds
    under [notes] and [deadline], a job that was in the database has the
    notes and the deadline it had, and a job that was not, the one [POST
    /jobs] has created, has neither. *)
Theorem notes_deadline_discarded (B : Bcrypt) (J : Jwt) (nullable : bool)
    (userSchema : ZodObject) (env : Env) (r : Route) (req : Request) (st : Store)
    (id : string) (j' : Job) :
  r = POST_jobs \/ r = PUT_jobs_id ->
  jobs (store (dispatch nullable userSchema env r req st)) !! id = Some j' ->
  match jobs st !! id with
  | Some j => notes j' = notes j /\ deadline j' = deadline j
  | None => r = POST_jobs /\ notes j' = None /\ deadline j' = None
  end.
Proof.
  assert (Hsame : jobs st !! id = Some j' ->
            match jobs st !! id with
            | Some j => notes j' = notes j /\ deadline j' = deadline j
            | None => r = POST_jobs /\ notes j' = None /\ deadline j' = None
            end).
  { intros ->. auto. }
  unfold dispatch. intros [-> | ->]; simpl;
    (destruct (authMiddleware env req) as [refusal | req1]; simpl; [exact Hsame|]);
    (destruct (validateZod jobSchema req1) as [refusal | req2]; simpl; [exact Hsame|]).
  - destruct (createJob nullable env req2 st) as [res st'] eqn:Hc. simpl.
    destruct (createJob_store nullable env req2 st st' res Hc)
      as [-> | (j & Hfresh & Hn & Hd & ->)]; [exact Hsame|].
    simpl. destruct (decide (fresh_id env = id)) as [<-|Hne].
    + rewrite lookup_insert_eq, Hfresh. intros [= <-]. auto.
    + rewrite lookup_insert_ne by done. exact Hsame.
  - destruct (updateJob nullable req2 st) as [res st'] eqn:Hc. simpl.
    destruct (updateJob_store nullable req2 st st' res Hc)
      as [-> | (i & j & j2 & Hj & Hn & Hd & _ & ->)]; [exact Hsame|].
    simpl. destruct (decide (i = id)) as [<-|Hne].
    + rewrite lookup_insert_eq, Hj. intros [= <-]. auto.
    + rewrite lookup_insert_ne by done. exact Hsame.
Qed.

Lemma notes_deadline_discarded_witness :
  let world nullable r id :=
    dispatch (H := Sample.bcrypt) (H0 := Sample.jwt) nullable Sample.userSchema
      (Sample.env 10 "j2") r
      (Sample.request (Sample.bearer "u1") id Sample.job_body_notes)
      Sample.two_users in
  let created :=
    {| title := "Eng"; company := "Acme"; status := "WISHLIST"; description := None;
       notes := None; deadline := None; userId := None |} in
  let edited :=
    {| title := "Eng"; company := "Acme"; status := "WISHLIST"; description := None;
       notes := Some "referral"; deadline := None; userId := Some "u1" |} in
  (jobs (store (world true POST_jobs "")) !! "j2" = Some created
   /\ POST_jobs = POST_jobs /\ notes created = None /\ deadline created = None)
  /\ jobs (store (world false PUT_jobs_id "j1")) !! "j1" = Some edited
  /\ notes edited = notes Sample.alice_job
  /\ deadline edited = deadline Sample.alice_job.
Proof.
  intros world created edited.
  assert (Hpost : jobs (store (world true POST_jobs "")) !! "j2" = Some created)
    by (vm_compute; reflexivity).
  assert (Hput : jobs (store (world false PUT_jobs_id "j1")) !! "j1" = Some edited)
    by (vm_compute; reflexivity).
  split; [split; [exact Hpost|] | split; [exact Hput|]].
  - exact (notes_deadline_discarded Sample.bcrypt Sample.jwt true Sample.userSchema
             (Sample.env 10 "j2") POST_jobs _ Sample.two_users "j2" created
             (or_introl eq_refl) Hpost).
  - exact (notes_deadline_discarded Sample.bcrypt Sample.jwt false Sample.userSchema
             (Sample.env 10 "j2") PUT_jobs_id _ Sample.two_users "j1" edited
             (or_intror eq_refl) Hput).
Defined.

(** ** The owner of a job *)

Lemma run_chain_store (stages : list Stage) (req : Request) (st : Store) :
  store (run_chain stages req st) = st
  \/ exists n h req',
       In (Handler n h) stages /\ store (run_chain stages req st) = (h req' st).2.
Proof.
  revert req. induction stages as [|[n f | n h] stages IH]; intros req; simpl.
  - now left.
  - destruct (f req) as [r | req']; simpl; [now left|].
    destruct (IH req') as [Hst | (n' & h & req'' & Hin & Hst)]; [now left|].
    right. exists n', h, req''. auto.
  - right. exists n, h, req. split; [now left|]. now destruct (h req st).
Qed.

Lemma user_handlers_jobs `{Bcrypt} `{Jwt} (env : Env) (req : Request) (st : Store) :
  jobs (createUser env req st).2 = jobs st
  /\ jobs (listUsers req st).2 = jobs st
  /\ jobs (updateUser req st).2 = jobs st
  /\ jobs (loginUser env req st).2 = jobs st
  /\ jobs (protected req st).2 = jobs st.
Proof.
  repeat split.
  - unfold createUser, try_catch, user_create, hash_password. simpl. cases; reflexivity.
  - unfold updateUser, try_catch, user_update. simpl. cases; reflexivity.
  - unfold loginUser, try_catch, user_findUnique, compare_password, sign_token. simpl.
    cases; reflexivity.
Qed.

(** What [deleteUser] writes: nothing, or the user is removed, and where
    [Job.userId] is nullable the jobs of that user lose their owner. *)
Lemma deleteUser_store (nullable : bool) (req : Request) (st : Store) :
  (deleteUser nullable req st).2 = st
  \/ (exists i, (deleteUser nullable req st).2 = set_users st (delete i (users st)))
  \/ (nullable = true
      /\ exists i, (deleteUser nullable req st).2
                   = {| users := delete i (users st); jobs := disown i <$> jobs st |}).
Proof.
  unfold deleteUser, try_catch, user_delete.
  cases; try (now left); try (right; left; eexists; reflexivity).
  right; right. split; [reflexivity|]. eexists. reflexivity.
Qed.

Lemma read_handlers_store (nullable : bool) (req : Request) (st : Store) :
  (getJobs nullable req st).2 = st /\ (getJobById nullable req st).2 = st.
Proof.
  split.
  - unfold getJobs, try_catch, job_findMany. cases; reflexivity.
  - unfold getJobById, try_catch. cases; reflexivity.
Qed.

Lemma deleteJob_store (nullable : bool) (req : Request) (st : Store) :
  (deleteJob nullable req st).2 = st
  \/ exists i, (deleteJob nullable req st).2 = set_jobs st (delete i (jobs st)).
Proof.
  unfold deleteJob, try_catch, job_delete. cases; try (now left).
  right. eexists. reflexivity.
Qed.

(** One request and the owner of a job that was there before it and is
    there after it. *)
Lemma owner_step (B : Bcrypt) (J : Jwt) (nullable : bool) (userSchema : ZodObject)
    (env : Env) (r : Route) (req : Request) (st : Store) (id : string) (j j' : Job) :
  jobs st !! id = Some j ->
  jobs (store (dispatch nullable userSchema env r req st)) !! id = Some j' ->
  userId j' = userId j
  \/ (nullable = true /\ r = DELETE_users_id /\ userId j' = None).
Proof.
  intros Hj. unfold dispatch.
  destruct (run_chain_store (chain nullable userSchema env r) req st)
    as [-> | (n & h & req' & Hin & ->)]; [left; congruence|].
  destruct (user_handlers_jobs env req' st) as (Hcu & Hlu & Huu & Hlo & Hpr).
  destruct (read_handlers_store nullable req' st) as (Hgj & Hgi).
  destruct r; simpl in Hin;
    repeat (destruct Hin as [Hin | Hin]; [try discriminate Hin|]); try contradiction;
    injection Hin as _ <-.
  - rewrite Hcu. left; congruence.
  - rewrite Hlu. left; congruence.
  - rewrite Huu. left; congruence.
  - destruct (deleteUser_store nullable req' st) as [-> | [[i ->] | (-> & i & ->)]];
      simpl; [left; congruence | left; congruence |].
    rewrite lookup_fmap, Hj. simpl. intros [= <-]. unfold disown.
    destruct (passes (Equals i) (userId j)); simpl; [right; auto | left; reflexivity].
  - rewrite Hlo. left; congruence.
  - rewrite Hpr. left; congruence.
  - destruct (createJob nullable env req' st) as [res st'] eqn:Hc.
    destruct (createJob_store nullable env req' st st' res Hc)
      as [-> | (j0 & Hfresh & _ & _ & ->)]; simpl; [left; congruence|].
    destruct (decide (fresh_id env = id)) as [<-|Hne]; [congruence|].
    rewrite lookup_insert_ne by done. left; congruence.
  - rewrite Hgj. left; congruence.
  - rewrite Hgi. left; congruence.
  - destruct (updateJob nullable req' st) as [res st'] eqn:Hc.
    destruct (updateJob_store nullable req' st st' res Hc)
      as [-> | (i & j0 & j1 & Hj0 & _ & _ & Hu & ->)]; simpl; [left; congruence|].
    destruct (decide (i = id)) as [<-|Hne].
    + rewrite lookup_insert_eq. left; congruence.
    + rewrite lookup_insert_ne by done. left; congruence.
  - destruct (deleteJob_store nullable req' st) as [-> | [i ->]]; simpl;
      [left; congruence|].
    destruct (decide (i = id)) as [<-|Hne].
    + rewrite lookup_delete_eq. discriminate.
    + rewrite lookup_delete_ne by done. left; congruence.
Qed.


(** X20: a request leaves the owner of a job that stays in the database as
    it was, but for [DELETE /users/:id] where [Job.userId] is nullable: the
    jobs of the deleted user stay, without an owner. *)
Lemma owner_kept (B : Bcrypt) (J : Jwt) (nullable : bool) (userSchema : ZodObject)
    (env : Env) (r : Route) (req : Request) (st : Store) (id : string) (j j' : Job) :
  jobs st !! id = Some j ->
  jobs (store (dispatch nullable userSchema env r req st)) !! id = Some j' ->
  userId j' = userId j
  \/ (nullable = true /\ r = DELETE_users_id /\ userId j' = None).
Proof. exact (owner_step B J nullable userSchema env r req st id j j'). Qed.

Lemma createJob_ok (nullable : bool) (env : Env) (req : Request) (st st' : Store)
    (payload : Body) :
  createJob nullable env req st = (Ok (Respond 201 payload), st') ->
  exists userId_v j,
    prop (user req) "id" = Ok userId_v
    /\ owner_arg nullable userId_v = Ok (userId j)
    /\ jobs st !! fresh_id env = None
    /\ payload = Json (job_json (fresh_id env, j))
    /\ st' = set_jobs st (<[fresh_id env := j]> (jobs st)).
Proof.
  unfold createJob, try_catch, job_create.
  cases; intros [= <- <-]. do 2 eexists.
  split; [reflexivity|].
  split; [|split; [|split; reflexivity]];
    [simpl; eassumption | first [assumption | reflexivity]].
Qed.





(** What the two writing handlers read of a request: the body under
    [title], [description], [company] and [status], the caller, and for an
    update the id; two requests that agree on these are handled alike. *)
Lemma createJob_reads (nullable : bool) (env : Env) (req1 req2 : Request) (st : Store) :
  prop (body req1) "title" = prop (body req2) "title" ->
  prop (body req1) "description" = prop (body req2) "description" ->
  prop (body req1) "company" = prop (body req2) "company" ->
  prop (body req1) "status" = prop (body req2) "status" ->
  user req1 = user req2 ->
  createJob nullable env req1 st = createJob nullable env req2 st.
Proof.
  intros Ht Hd Hc Hs Hu. unfold createJob. now rewrite Ht, Hd, Hc, Hs, Hu.
Qed.

Lemma updateJob_reads (nullable : bool) (req1 req2 : Request) (st : Store) :
  prop (body req1) "title" = prop (body req2) "title" ->
  prop (body req1) "description" = prop (body req2) "description" ->
  prop (body req1) "company" = prop (body req2) "company" ->
  prop (body req1) "status" = prop (body req2) "status" ->
  user req1 = user req2 ->
  params req1 = params req2 ->
  updateJob nullable req1 st = updateJob nullable req2 st.
Proof.
  intros Ht Hd Hc Hs Hu Hp. unfold updateJob. now rewrite Ht, Hd, Hc, Hs, Hu, Hp.
Qed.

(** X21: a signup that names a free email and a password, both non-empty
    strings, is accepted by the handler when the database draws a new id:
    the answer is 201 with the new record, stored with the bcrypt hash of the
    password. *)
Lemma createUser_succeeds `{Bcrypt} (env : Env) (req : Request) (st : Store)
    (e p : string) (n : option string) :
  prop (body req) "email" = Ok (JStr e) ->
  prop (body req) "password" = Ok (JStr p) ->
  prop (body req) "name" = Ok (match n with Some s => JStr s | None => JUndefined end) ->
  e <> "" -> p <> "" ->
  users st !! fresh_id env = None ->
  email_taken e (map_to_list (users st)) = false ->
  let u := {| email := e; password := bcrypt_hash (salt env) p 10; name := n |} in
  createUser env req st
  = (Ok (Respond 201 (Json (user_json (fresh_id env, u)))),
     set_users st (<[fresh_id env := u]> (users st))).
Proof.
  intros He Hp Hn Hne Hnp Hfresh Htaken u. subst u.
  unfold createUser, user_create. rewrite He, Hp, Hn. simpl.
  apply String.eqb_neq in Hne, Hnp. rewrite Hne, Hnp. simpl.
  destruct n; simpl; rewrite Hfresh, Htaken; reflexivity.
Qed.

(** ** The job handlers when [req.user.id] is the id of the caller

    What the handlers do for a request whose [req.user] has the caller's id
    under [id]: they are scoped to the caller. *)

(** X22: for a request whose [req.user.id] is the string [uid], a job
    that [createJob] creates (201) is stored under the new id with [uid] as
    its owner, and is the job sent back. *)
Lemma createJob_owner (nullable : bool) (env : Env) (req : Request) (st st' : Store)
    (uid : string) (payload : Body) :
  prop (user req) "id" = Ok (JStr uid) ->
  createJob nullable env req st = (Ok (Respond 201 payload), st') ->
  exists j,
    jobs st' !! fresh_id env = Some j /\ userId j = Some uid
    /\ payload = Json (job_json (fresh_id env, j)).
Proof.
  intros Hu. unfold createJob, try_catch, job_create, owner_arg. rewrite Hu.
  cases; try discriminate; intros [= <- <-]; eexists;
    (split; [apply lookup_insert_eq | split; reflexivity]).
Qed.

(** X23: for a request whose [req.user.id] is the string [uid], [getJobs]
    answers 200 with exactly the jobs of the database owned by [uid]. *)
Lemma getJobs_scoped (nullable : bool) (req : Request) (st : Store) (uid : string) :
  prop (user req) "id" = Ok (JStr uid) ->
  exists found,
    getJobs nullable req st = (Ok (Respond 200 (Json (JArr (map job_json found)))), st)
    /\ forall id j, In (id, j) found <-> jobs st !! id = Some j /\ userId j = Some uid.
Proof.
  intros Hu. unfold getJobs, job_findMany. rewrite Hu. simpl.
  eexists. split; [reflexivity|]. intros id j.
  rewrite filter_In, <- list_elem_of_In, elem_of_map_to_list. simpl.
  destruct (userId j) as [o|]; simpl.
  - rewrite String.eqb_eq. split; intros [Hj Ho]; split; congruence.
  - split; intros [Hj Ho]; discriminate.
Qed.

(** X24: for a request whose [req.user.id] is the string [b], a job owned
    by another user [a] and an id that no job has are answered alike by
    [getJobById], [updateJob] and [deleteJob]: 404 [{error: "Job not found"}],
    the database left as it was. *)
Lemma foreign_job_hidden (nullable : bool) (req : Request) (st : Store)
    (a b id : string) (j : Job) (fs : list (string * JsValue)) :
  prop (user req) "id" = Ok (JStr b) ->
  prop (params req) "id" = Ok (JStr id) ->
  body req = JObj fs ->
  jobs st !! id = Some j \/ jobs st !! id = None ->
  userId j = Some a ->
  a <> b ->
  let not_found := (Ok (Respond 404 (error_body "Job not found")), st) in
  getJobById nullable req st = not_found
  /\ updateJob nullable req st = not_found
  /\ deleteJob nullable req st = not_found.
Proof.
  intros Hu Hp Hb Hj Ha Hab not_found.
  assert (Hfind : job_findFirst nullable (JStr id) (JStr b) st = Ok None).
  { rewrite (job_findFirst_id nullable id (JStr b) st (Equals b) eq_refl).
    destruct Hj as [-> | ->]; [|reflexivity].
    rewrite Ha. simpl. apply String.eqb_neq in Hab.
    rewrite String.eqb_sym, Hab. reflexivity. }
  unfold getJobById, updateJob, deleteJob. rewrite Hu, Hp, Hb. simpl.
  rewrite Hfind. auto.
Qed.

(** ** What the validator hands to the handlers *)

Lemma parse_shape_accepts (shape : ZodObject) (fs : list (string * JsValue))
    (k : string) (t : ZodType) :
  (parse_shape shape fs).1 = [] ->
  In (k, t) shape ->
  exists v, parse_type t (field fs k) = inr v.
Proof.
  intros Hnone Hin.
  destruct (parse_type t (field fs k)) as [m|v] eqn:Hparse; [|now exists v].
  pose proof (parse_shape_issue shape fs k t m Hin Hparse) as Hissue.
  rewrite Hnone in Hissue. destruct Hissue.
Qed.

Lemma parse_shape_data (shape : ZodObject) (fs : list (string * JsValue))
    (k : string) (t : ZodType) :
  In (k, t) shape ->
  (parse_shape shape fs).1 = [] ->
  field (parse_shape shape fs).2 k = field fs k.
Proof.
  induction shape as [|[k' t'] shape IH]; simpl; [tauto|].
  intros Hin Hnone.
  pose proof (parse_shape_field shape fs k) as Hrest.
  destruct (parse_shape shape fs) as [issues data]. simpl in *.
  destruct (parse_type t' (field fs k')) as [m|v] eqn:Hparse; simpl in *;
    [discriminate|].
  apply parse_type_keeps in Hparse. subst v.
  assert (Hnone' : issues = []) by (destruct (field fs k'); exact Hnone).
  destruct (String.eqb k' k) eqn:Hk.
  - apply String.eqb_eq in Hk. subst k'.
    destruct (field fs k) eqn:Hv; simpl; rewrite ?String.eqb_refl; try reflexivity.
    destruct Hrest as [Hrest | Hrest]; congruence.
  - assert (Hlater : In (k, t) shape).
    { destruct Hin as [Heq | Hin]; [|exact Hin].
      inversion Heq; subst. now rewrite String.eqb_refl in Hk. }
    specialize (IH Hlater Hnone').
    destruct (field fs k'); simpl; rewrite ?Hk; exact IH.
Qed.

(** A body that passes [validateZod(jobSchema)] reaches the handler with
    the notes and the deadline it came with. *)
Lemma validateZod_hands_notes (req req' : Request) :
  validateZod jobSchema req = inr req' ->
  prop (body req') "notes" = prop (body req) "notes"
  /\ prop (body req') "deadline" = prop (body req) "deadline".
Proof.
  unfold validateZod, safeParse.
  destruct (body req) as [| | | | | |fs]; try discriminate.
  pose proof (parse_shape_data jobSchema fs "notes" (ZOptional ZString)) as Hnotes.
  pose proof (parse_shape_data jobSchema fs "deadline" (ZOptional ZString)) as Hdeadline.
  destruct (parse_shape jobSchema fs) as [[|i issues] data]; [|discriminate].
  intros [= <-]. simpl in *. split; f_equal.
  - apply Hnotes; [tauto | reflexivity].
  - apply Hdeadline; [tauto | reflexivity].
Qed.

(** ** The scenario of a new user

    Signup, login, then the two job routes with the token of the login, run
    with the stand-in libraries and a required [Job.userId]. *)
Example new_user_scenario :
  let app := dispatch (H := Sample.bcrypt) (H0 := Sample.jwt) false Sample.userSchema in
  let signup :=
    app (Sample.env 0 "u1") POST_users (Sample.request None "" Sample.signup_body)
      Sample.empty in
  let login :=
    app (Sample.env 1 "u2") POST_login (Sample.request None "" Sample.signup_body)
      (store signup) in
  let header := Some "Bearer jwt.u1" in
  let list :=
    app (Sample.env 2 "j1") GET_jobs (Sample.request header "" JUndefined)
      (store login) in
  let create :=
    app (Sample.env 3 "j1") POST_jobs
      (Sample.request header "" (Sample.job_body "WISHLIST")) (store list) in
  reply signup = Some (Ok (Respond 201 (Json (user_json ("u1", Sample.alice)))))
  /\ reply login = Some (Ok (Respond 200 (Json (JObj [("token", JStr "jwt.u1")]))))
  /\ reply list = Some (Ok (Respond 200 (Json (JArr []))))
  /\ reply create
     = Some (Ok (Respond 500 (Failure "Failed to create job" PrismaValidationError)))
  /\ jobs (store create) = ∅.
Proof. vm_compute. repeat split; reflexivity. Qed.

(** * Further properties *)

(** ** The gate, continued *)

(** X1: [authMiddleware] calls [next()] exactly when the header starts
    with [Bearer ] and its second word verifies; the request then goes on
    with [req.user] set to the decoded payload and nothing else changed. *)
Theorem authMiddleware_admits_iff `{Jwt} (env : Env) (req req' : Request) :
  authMiddleware env req = inr req'
  <-> exists h token decoded,
        authorization req = Some h
        /\ startsWith h "Bearer " = true
        /\ split_on " " h !! 1%nat = Some token
        /\ jwt_verify token (JWT_SECRET env) (now env) = Some decoded
        /\ req' = set_user req decoded.
Proof.
  unfold authMiddleware. split.
  - destruct (authorization req) as [h|]; [|discriminate].
    destruct (String.eqb h "") eqn:Hempty; simpl; [discriminate|].
    destruct (startsWith h "Bearer ") eqn:Hscheme; simpl; [|discriminate].
    destruct (split_on " " h !! 1%nat) as [token|] eqn:Htoken; [|discriminate].
    destruct (jwt_verify token (JWT_SECRET env) (now env)) as [decoded|] eqn:Hverify;
      [|discriminate].
    intros [= <-]. exists h, token, decoded. auto.
  - intros (h & token & decoded & -> & Hscheme & -> & -> & ->).
    rewrite Hscheme. destruct h; [discriminate Hscheme | reflexivity].
Qed.

Lemma split_first_word (w rest : string) :
  no_space w = true ->
  split_on " " (w ++ String " " rest) = w :: split_on " " rest.
Proof.
  unfold no_space. induction w as [|c w IH]; simpl; [reflexivity|].
  intros Hw. apply andb_true_iff in Hw as [Hc Hrest]. apply negb_true_iff in Hc.
  rewrite Hc, (IH Hrest). reflexivity.
Qed.

(** X2: of a header [Bearer <token> <anything>] the gate verifies the
    second word alone: once that word verifies the request is admitted,
    whatever follows it. *)
Theorem authMiddleware_trailing_words `{Jwt} (env : Env) (req : Request)
    (token rest : string) (decoded : JsValue) :
  no_space token = true ->
  authorization req = Some ("Bearer " ++ token ++ String " " rest) ->
  jwt_verify token (JWT_SECRET env) (now env) = Some decoded ->
  authMiddleware env req = inr (set_user req decoded).
Proof.
  intros Hw Hh Hverify. unfold authMiddleware.
  rewrite Hh, (bearer_scheme (token ++ String " " rest)).
  change ("Bearer " ++ token ++ String " " rest)
    with (String "B" (String "e" (String "a" (String "r" (String "e"
           (String "r" (String " " (token ++ String " " rest)))))))).
  simpl. rewrite (split_first_word token rest Hw). simpl.
  rewrite Hverify. reflexivity.
Qed.

Lemma authMiddleware_trailing_words_witness :
  authMiddleware (H0 := Sample.jwt) (Sample.env 10 "j2")
    (Sample.request (Some "Bearer jwt.u1 and more") "" JUndefined)
  = inr (set_user (Sample.request (Some "Bearer jwt.u1 and more") "" JUndefined)
           (JObj [("userId", JStr "u1"); ("iat", JNum 0); ("exp", JNum 3600)])).
Proof.
  apply (authMiddleware_trailing_words (H := Sample.jwt) (Sample.env 10 "j2") _
           "jwt.u1" "and more"); reflexivity.
Defined.

(** ** Logging in *)

Lemma find_email (e : string) (us : list (string * User)) :
  match List.find (fun r => String.eqb (email r.2) e) us with
  | Some r => In r us /\ email r.2 = e /\ email_taken e us = true
  | None => email_taken e us = false
  end.
Proof.
  unfold email_taken. induction us as [|r us IH]; simpl; [reflexivity|].
  destruct (String.eqb (email r.2) e) eqn:He; simpl.
  - apply String.eqb_eq in He. auto.
  - destruct (List.find _ us) as [r'|]; [|exact IH].
    destruct IH as (Hin & Hr & Ht). auto.
Qed.

(** X3: [loginUser] answers 200 only to an email and a password that are
    strings, the email that of a stored user and the password one that
    [bcrypt.compare] accepts against the hash stored for that user; the
    token is signed for the id of that user and the database is not
    written. *)
Theorem loginUser_sound `{Bcrypt} `{Jwt} (env : Env) (req : Request) (st st' : Store)
    (payload : Body) :
  loginUser env req st = (Ok (Respond 200 payload), st') ->
  st' = st
  /\ exists e p uid u,
       prop (body req) "email" = Ok (JStr e)
       /\ prop (body req) "password" = Ok (JStr p)
       /\ users st !! uid = Some u
       /\ email u = e
       /\ bcrypt_compare p (password u) = true
       /\ payload = Json (JObj [("token",
            JStr (jwt_sign [("userId", JStr uid)] (JWT_SECRET env) 3600 (now env)))]).
Proof.
  unfold loginUser, user_findUnique.
  destruct (prop (body req) "email") as [email_v|]; simpl; [|discriminate].
  destruct (prop (body req) "password") as [password_v|]; simpl; [|discriminate].
  destruct email_v as [| | | |e| |]; simpl; try discriminate.
  pose proof (find_email e (map_to_list (users st))) as Hfind.
  destruct (List.find _ _) as [[uid u]|]; simpl; [|discriminate].
  destruct Hfind as (Hin & He & _).
  destruct password_v as [| | | |p| |]; simpl; try discriminate.
  destruct (bcrypt_compare p (password u)) eqn:Hcompare; simpl; [|discriminate].
  unfold sign_token. destruct (String.eqb (JWT_SECRET env) ""); simpl; [discriminate|].
  intros [= <- <-]. split; [reflexivity|].
  exists e, p, uid, u.
  apply list_elem_of_In, elem_of_map_to_list in Hin. auto 10.
Qed.

Lemma loginUser_sound_witness :
  exists uid u,
    users Sample.two_users !! uid = Some u
    /\ email u = "b@x.com"
    /\ Sample.compare "hunter22" (password u) = true.
Proof.
  destruct (loginUser_sound (H := Sample.bcrypt) (H0 := Sample.jwt)
              (Sample.env 10 "u3")
              (Sample.request None ""
                 (JObj [("email", JStr "b@x.com"); ("password", JStr "hunter22")]))
              Sample.two_users Sample.two_users
              (Json (JObj [("token", JStr "jwt.u2")])))
    as (_ & e & p & uid & u & He & Hp & Hu & Hemail & Hcompare & _);
    [vm_compute; reflexivity|].
  injection He as <-. injection Hp as <-. exists uid, u. auto.
Defined.

(** X4: when no stored user has the email sent together with a hash that
    the password sent verifies against, [loginUser] answers 401
    [{error: "Invalid credentials"}], the same for an unknown email and for
    a wrong password, and the database is not written. *)
Theorem loginUser_invalid_credentials `{Bcrypt} `{Jwt} (env : Env) (req : Request)
    (st : Store) (e p : string) :
  prop (body req) "email" = Ok (JStr e) ->
  prop (body req) "password" = Ok (JStr p) ->
  (forall uid u, users st !! uid = Some u -> email u = e ->
                 bcrypt_compare p (password u) = false) ->
  loginUser env req st
  = (Ok (Respond 401 (Json (JObj [("error", JStr "Invalid credentials")]))), st).
Proof.
  intros He Hp Hnone. unfold loginUser, user_findUnique. rewrite He, Hp. simpl.
  pose proof (find_email e (map_to_list (users st))) as Hfind.
  destruct (List.find _ _) as [[uid u]|]; simpl; [|reflexivity].
  destruct Hfind as (Hin & Hemail & _).
  apply list_elem_of_In, elem_of_map_to_list in Hin.
  rewrite (Hnone uid u Hin Hemail). reflexivity.
Qed.

Lemma loginUser_invalid_credentials_witness :
  let attempt e p :=
    loginUser (H := Sample.bcrypt) (H0 := Sample.jwt) (Sample.env 10 "u3")
      (Sample.request None "" (JObj [("email", JStr e); ("password", JStr p)]))
      Sample.two_users in
  let refusal :=
    (Ok (Respond 401 (Json (JObj [("error", JStr "Invalid credentials")]))),
     Sample.two_users) in
  attempt "nobody@x.com" "hunter22" = refusal
  /\ attempt "b@x.com" "guess" = refusal.
Proof.
  intros attempt refusal. split.
  - apply (loginUser_invalid_credentials (H := Sample.bcrypt) (H0 := Sample.jwt)
             _ _ _ "nobody@x.com" "hunter22"); [reflexivity | reflexivity |].
    intros uid u Hu He.
    apply elem_of_map_to_list, list_elem_of_In in Hu. vm_compute in Hu.
    destruct Hu as [Hu | [Hu | []]]; injection Hu as <- <-; discriminate He.
  - apply (loginUser_invalid_credentials (H := Sample.bcrypt) (H0 := Sample.jwt)
             _ _ _ "b@x.com" "guess"); [reflexivity | reflexivity |].
    intros uid u Hu He.
    apply elem_of_map_to_list, list_elem_of_In in Hu. vm_compute in Hu.
    destruct Hu as [Hu | [Hu | []]]; injection Hu as <- <-;
      [discriminate He | reflexivity].
Defined.

(** X5: a login whose password is not a string (absent, say) is answered
    500 [{error: "Failed to login"}] when the email is that of a stored
    user, [bcrypt.compare] throwing, and 401 when it is not: the two answers
    tell a registered email from an unknown one. *)
Theorem loginUser_password_not_string `{Bcrypt} `{Jwt} (env : Env) (req : Request)
    (st : Store) (e : string) (password_v : JsValue) :
  prop (body req) "email" = Ok (JStr e) ->
  prop (body req) "password" = Ok password_v ->
  (forall p, password_v <> JStr p) ->
  loginUser env req st
  = (Ok (if email_taken e (map_to_list (users st))
         then Respond 500 (Failure "Failed to login" BcryptIllegalArguments)
         else Respond 401 (Json (JObj [("error", JStr "Invalid credentials")]))),
     st).
Proof.
  intros He Hp Hv. unfold loginUser, user_findUnique. rewrite He, Hp. simpl.
  pose proof (find_email e (map_to_list (users st))) as Hfind.
  destruct (List.find _ _) as [[uid u]|]; simpl.
  - destruct Hfind as (_ & _ & ->).
    destruct password_v; try reflexivity. now destruct (Hv s).
  - rewrite Hfind. reflexivity.
Qed.

Lemma loginUser_password_not_string_witness :
  let attempt e :=
    (loginUser (H := Sample.bcrypt) (H0 := Sample.jwt) (Sample.env 10 "u3")
       (Sample.request None "" (JObj [("email", JStr e)])) Sample.two_users).1 in
  attempt "b@x.com" = Ok (Respond 500 (Failure "Failed to login" BcryptIllegalArguments))
  /\ attempt "nobody@x.com"
     = Ok (Respond 401 (Json (JObj [("error", JStr "Invalid credentials")]))).
Proof.
  intros attempt. subst attempt. split.
  - rewrite (loginUser_password_not_string (H := Sample.bcrypt) (H0 := Sample.jwt)
               _ _ _ "b@x.com" JUndefined); [reflexivity | reflexivity | reflexivity |].
    intros p; discriminate.
  - rewrite (loginUser_password_not_string (H := Sample.bcrypt) (H0 := Sample.jwt)
               _ _ _ "nobody@x.com" JUndefined);
      [reflexivity | reflexivity | reflexivity |].
    intros p; discriminate.
Defined.

(** ** The validation middleware, continued *)

Lemma parse_shape_no_issues (shape : ZodObject) (fs : list (string * JsValue)) :
  (forall k t, In (k, t) shape -> exists v, parse_type t (field fs k) = inr v) ->
  (parse_shape shape fs).1 = [].
Proof.
  induction shape as [|[k t] shape IH]; simpl; [reflexivity|].
  intros Hall.
  assert (Hrest : (parse_shape shape fs).1 = []) by (apply IH; intros; apply Hall; auto).
  destruct (Hall k t (or_introl eq_refl)) as [v Hv].
  destruct (parse_shape shape fs) as [issues data]. rewrite Hv. simpl in *.
  destruct v; exact Hrest.
Qed.

Lemma parse_shape_issue_key (shape : ZodObject) (fs : list (string * JsValue))
    (i : ZodIssue) :
  In i (parse_shape shape fs).1 ->
  exists k t m,
    In (k, t) shape /\ i = {| path := [k]; message := m |}
    /\ parse_type t (field fs k) = inl m.
Proof.
  induction shape as [|[k t] shape IH]; simpl; [intros []|].
  destruct (parse_shape shape fs) as [issues data]. simpl in IH.
  destruct (parse_type t (field fs k)) as [m|v] eqn:Hparse; simpl.
  - intros [<- | Hin].
    + exists k, t, m. auto.
    + destruct (IH Hin) as (k' & t' & m' & Hk & Hi & Hm). exists k', t', m'. auto.
  - intros Hin.
    assert (Hin' : In i issues) by (destruct v; exact Hin).
    destruct (IH Hin') as (k' & t' & m' & Hk & Hi & Hm). exists k', t', m'. auto.
Qed.

Lemma parse_shape_unknown (shape : ZodObject) (fs : list (string * JsValue))
    (k : string) :
  (forall t, ~ In (k, t) shape) ->
  field (parse_shape shape fs).2 k = JUndefined.
Proof.
  induction shape as [|[k' t'] shape IH]; simpl; [reflexivity|].
  intros Hnot.
  assert (Hrest : field (parse_shape shape fs).2 k = JUndefined)
    by (apply IH; intros t Hin; apply (Hnot t); auto).
  assert (Hk : String.eqb k' k = false).
  { apply String.eqb_neq. intros ->. apply (Hnot t'). auto. }
  destruct (parse_shape shape fs) as [issues data]. simpl in *.
  destruct (parse_type t' (field fs k')) as [m|v]; simpl; [exact Hrest|].
  destruct v; simpl; rewrite ?Hk; exact Hrest.
Qed.

Lemma parse_shape_ext (shape : ZodObject) (fs1 fs2 : list (string * JsValue)) :
  (forall k t, In (k, t) shape -> field fs1 k = field fs2 k) ->
  parse_shape shape fs1 = parse_shape shape fs2.
Proof.
  induction shape as [|[k t] shape IH]; simpl; [reflexivity|].
  intros Hsame. rewrite IH by (intros; eapply Hsame; eauto).
  now rewrite (Hsame k t (or_introl eq_refl)).
Qed.

Lemma validateZod_kept (schema : ZodObject) (req req' : Request) :
  validateZod schema req = inr req' ->
  exists fs data,
    body req = JObj fs
    /\ req' = set_body req (JObj data)
    /\ forall k t, In (k, t) schema -> field data k = field fs k.
Proof.
  unfold validateZod, safeParse.
  destruct (body req) as [| | | | | |fs]; try discriminate.
  pose proof (fun k t => parse_shape_data schema fs k t) as Hkept.
  destruct (parse_shape schema fs) as [[|i issues] data]; [|discriminate].
  intros [= <-]. exists fs, data. simpl in *.
  split; [reflexivity|]. split; [reflexivity|].
  intros k t Hin. exact (Hkept k t Hin eq_refl).
Qed.

(** X6: a request that passes [validateZod] goes on with the parsed data
    as its body and is otherwise unchanged: the fields the schema names are
    as they were sent, every other field is dropped. *)
Theorem validateZod_strips_unknown (schema : ZodObject) (req req' : Request) :
  validateZod schema req = inr req' ->
  exists fs data,
    body req = JObj fs
    /\ req' = set_body req (JObj data)
    /\ (forall k t, In (k, t) schema -> field data k = field fs k)
    /\ (forall k, (forall t, ~ In (k, t) schema) -> field data k = JUndefined).
Proof.
  unfold validateZod, safeParse.
  destruct (body req) as [| | | | | |fs]; try discriminate.
  pose proof (fun k t => parse_shape_data schema fs k t) as Hkept.
  pose proof (parse_shape_unknown schema fs) as Hdropped.
  destruct (parse_shape schema fs) as [[|i issues] data]; [|discriminate].
  intros [= <-]. exists fs, data. simpl in *.
  split; [reflexivity|]. split; [reflexivity|]. split; [|exact Hdropped].
  intros k t Hin. exact (Hkept k t Hin eq_refl).
Qed.

Lemma validateZod_strips_unknown_witness :
  let sent :=
    JObj [("title", JStr "Eng"); ("company", JStr "Acme"); ("status", JStr "OFFER");
          ("userId", JStr "u1"); ("notes", JStr "call back")] in
  exists fs data,
    sent = JObj fs
    /\ field data "notes" = JStr "call back"
    /\ field data "userId" = JUndefined.
Proof.
  intros sent.
  destruct (validateZod_strips_unknown jobSchema (Sample.request None "" sent)
              (set_body (Sample.request None "" sent)
                 (JObj [("title", JStr "Eng"); ("company", JStr "Acme");
                        ("status", JStr "OFFER"); ("notes", JStr "call back")]))
              eq_refl)
    as (fs & data & Hfs & _ & Hkept & Hdropped).
  exists fs, data. split; [exact Hfs|]. injection Hfs as <-. split.
  - rewrite (Hkept "notes" (ZOptional ZString)); [reflexivity|].
    simpl. tauto.
  - apply Hdropped. intros t Hin. simpl in Hin.
    repeat (destruct Hin as [Hin | Hin]; [discriminate Hin|]). exact Hin.
Defined.

(** X7: what [validateZod] refuses it refuses with 400 and at least one
    error entry; for a body that is an object every entry has for path the
    name of a field of the schema, and a body that is not an object gets the
    single entry of the empty path. *)
Theorem validateZod_refusal (schema : ZodObject) (req : Request) (r : Response) :
  validateZod schema req = inl r ->
  exists errors,
    r = Respond 400 (ValidationErrors errors)
    /\ errors <> []
    /\ ((exists fs, body req = JObj fs) ->
        forall e, In e errors -> exists t, In (entry_path e, t) schema)
    /\ ((forall fs, body req <> JObj fs) ->
        errors = [ {| entry_path := ""; entry_message := InvalidType |} ]).
Proof.
  unfold validateZod, safeParse.
  destruct (body req) as [| | | | | |fs] eqn:Hbody;
    try (intros [= <-]; eexists; split; [reflexivity|]; split; [discriminate|];
         split; [intros [fs [=]] | reflexivity]).
  pose proof (parse_shape_issue_key schema fs) as Hkey.
  destruct (parse_shape schema fs) as [[|i issues] data]; [discriminate|].
  intros [= <-]. eexists. split; [reflexivity|]. split; [discriminate|]. split.
  - intros _ e He. change (In e (map format_issue (i :: issues))) in He.
    apply in_map_iff in He as (i' & <- & Hi').
    destruct (Hkey i' Hi') as (k & t & m & Hk & -> & _).
    exists t. exact Hk.
  - intros Hnot. now destruct (Hnot fs).
Qed.

Lemma validateZod_refusal_witness :
  exists errors,
    Respond 400 (ValidationErrors
      [ {| entry_path := "title"; entry_message := Custom "Title is required" |};
        {| entry_path := "status"; entry_message := InvalidType |} ])
    = Respond 400 (ValidationErrors errors)
    /\ errors <> [].
Proof.
  destruct (validateZod_refusal jobSchema
              (Sample.request None "" (JObj [("title", JStr ""); ("company", JStr "Acme")]))
              _ eq_refl) as (errors & Hr & Hne & _).
  exists errors. auto.
Defined.

(** X8: validating twice is validating once: the request [validateZod]
    lets through passes the same middleware again and comes out as it went
    in. *)
Theorem validateZod_idempotent (schema : ZodObject) (req req' : Request) :
  validateZod schema req = inr req' ->
  validateZod schema req' = inr req'.
Proof.
  intros Hv.
  destruct (validateZod_kept schema req req' Hv) as (fs & data & Hfs & -> & Hkept).
  unfold validateZod, safeParse in *. rewrite Hfs in Hv. simpl.
  rewrite (parse_shape_ext schema data fs Hkept).
  destruct (parse_shape schema fs) as [[|i issues] data']; [|discriminate].
  injection Hv as ->. reflexivity.
Qed.

Lemma validateZod_idempotent_witness :
  let req := Sample.request None "" Sample.job_body_notes in
  validateZod jobSchema (set_body req Sample.job_body_notes)
  = inr (set_body req Sample.job_body_notes).
Proof.
  intros req.
  apply (validateZod_idempotent jobSchema req). reflexivity.
Defined.

(** ** The job schema *)

Lemma required_string_accepts (text : string) (v : JsValue) :
  (exists v', parse_type (ZStringMin 1 text) v = inr v')
  <-> exists s, v = JStr s /\ s <> "".
Proof.
  simpl. split.
  - intros [v' Hv]. destruct v as [| | | |s| |]; try discriminate.
    exists s. split; [reflexivity|]. intros ->. discriminate.
  - intros (s & -> & Hs). destruct s; [contradiction | eauto].
Qed.

Lemma enum_accepts (values : list string) (v : JsValue) :
  (exists v', parse_type (ZEnum values) v = inr v')
  <-> exists s, v = JStr s /\ In s values.
Proof.
  simpl. split.
  - intros [v' Hv]. destruct v as [| | | |s| |]; try discriminate.
    destruct (in_list s values) eqn:Hin; [|discriminate].
    exists s. split; [reflexivity|].
    apply existsb_exists in Hin as (s' & Hs' & Heq).
    apply String.eqb_eq in Heq. now subst.
  - intros (s & -> & Hin).
    assert (Hl : in_list s values = true).
    { apply existsb_exists. exists s. split; [exact Hin | apply String.eqb_refl]. }
    rewrite Hl. eauto.
Qed.

Lemma optional_string_accepts (v : JsValue) :
  (exists v', parse_type (ZOptional ZString) v = inr v')
  <-> v = JUndefined \/ exists s, v = JStr s.
Proof.
  simpl. split.
  - intros [v' Hv]. destruct v; try discriminate; eauto.
  - intros [-> | [s ->]]; eauto.
Qed.

Lemma jobSchema_accepts_only (req : Request) (fs : list (string * JsValue)) :
  body req = JObj fs ->
  (exists req', validateZod jobSchema req = inr req') ->
  (exists s, field fs "title" = JStr s /\ s <> "")
  /\ (exists s, field fs "company" = JStr s /\ s <> "")
  /\ (exists s, field fs "status" = JStr s
                /\ In s ["WISHLIST"; "APPLIED"; "INTERVIEW"; "OFFER"; "REJECTEDz"])
  /\ (field fs "description" = JUndefined \/ exists s, field fs "description" = JStr s)
  /\ (field fs "notes" = JUndefined \/ exists s, field fs "notes" = JStr s)
  /\ (field fs "deadline" = JUndefined \/ exists s, field fs "deadline" = JStr s).
Proof.
  intros Hbody. unfold validateZod, safeParse. rewrite Hbody.
  intros [req' Hv].
  pose proof (parse_shape_accepts jobSchema fs) as Hall.
  destruct (parse_shape jobSchema fs) as [[|i issues] data]; [|discriminate].
  specialize (fun k t Hin => Hall k t eq_refl Hin).
  split; [apply (required_string_accepts "Title is required"), Hall; simpl; tauto|].
  split; [apply (required_string_accepts "Company is required"), Hall; simpl; tauto|].
  split; [apply enum_accepts, Hall; simpl; tauto|].
  repeat split; apply optional_string_accepts, Hall; simpl; tauto.
Qed.

(** X9: [validateZod(jobSchema)] lets a body through exactly when it is
    an object whose [title] and [company] are non-empty strings, whose
    [status] is one of WISHLIST, APPLIED, INTERVIEW, OFFER, REJECTEDz, and
    whose [description], [notes] and [deadline] are each absent or a
    string. *)
Theorem jobSchema_accepts_iff (req : Request) (fs : list (string * JsValue)) :
  body req = JObj fs ->
  (exists req', validateZod jobSchema req = inr req')
  <-> (exists s, field fs "title" = JStr s /\ s <> "")
      /\ (exists s, field fs "company" = JStr s /\ s <> "")
      /\ (exists s, field fs "status" = JStr s
                    /\ In s ["WISHLIST"; "APPLIED"; "INTERVIEW"; "OFFER"; "REJECTEDz"])
      /\ (field fs "description" = JUndefined \/ exists s, field fs "description" = JStr s)
      /\ (field fs "notes" = JUndefined \/ exists s, field fs "notes" = JStr s)
      /\ (field fs "deadline" = JUndefined \/ exists s, field fs "deadline" = JStr s).
Proof.
  intros Hbody. split; [exact (jobSchema_accepts_only req fs Hbody)|].
  unfold validateZod, safeParse. rewrite Hbody.
  intros (Ht & Hc & Hs & Hd & Hn & Hl).
  apply (required_string_accepts "Title is required") in Ht.
  apply (required_string_accepts "Company is required") in Hc.
  apply enum_accepts in Hs.
  apply optional_string_accepts in Hd, Hn, Hl.
  assert (Hnone : (parse_shape jobSchema fs).1 = []).
  { apply parse_shape_no_issues. intros k t Hin. simpl in Hin.
    repeat (destruct Hin as [Hin | Hin]; [injection Hin as <- <-; assumption|]).
    destruct Hin. }
  destruct (parse_shape jobSchema fs) as [issues data]. simpl in Hnone. subst issues.
  eauto.
Qed.

Lemma jobSchema_accepts_iff_witness :
  exists req',
    validateZod jobSchema (Sample.request None "" Sample.job_body_notes) = inr req'.
Proof.
  apply (jobSchema_accepts_iff (Sample.request None "" Sample.job_body_notes)
           [("title", JStr "Eng"); ("company", JStr "Acme"); ("status", JStr "WISHLIST");
            ("notes", JStr "call back"); ("deadline", JStr "2025-01-31")] eq_refl).
  simpl. repeat split; eauto; try (eexists; split; [reflexivity|]; try discriminate).
Defined.

(** ** What the routes leave alone *)

Lemma validate_inl (schema : ZodObject) (req : Request) (r : Response) :
  validateZodParam schema req = inl r \/ validateZodQuery schema req = inl r ->
  code_of r = 400.
Proof.
  unfold validateZodParam, validateZodQuery.
  intros [Hv | Hv]; destruct (safeParse schema _); try discriminate;
    injection Hv as <-; reflexivity.
Qed.

(** X10: on every route, when the handler has not run the database is as
    it was and the answer is the 401 of the gate or the 400 of a validation
    middleware. *)
Theorem refusal_keeps_store (B : Bcrypt) (J : Jwt) (nullable : bool)
    (userSchema : ZodObject) (env : Env) (r : Route) (req : Request) (st : Store) :
  let o := dispatch nullable userSchema env r req st in
  ~ In (handler_of r) (invoked o) ->
  store o = st
  /\ exists resp, reply o = Some (Ok resp) /\ (code_of resp = 400 \/ code_of resp = 401).
Proof.
  intros o. subst o. unfold dispatch.
  destruct r; simpl;
    repeat match goal with
      | |- context [authMiddleware env ?q] =>
          let Ha := fresh "Ha" in
          destruct (authMiddleware env q) as [?|?] eqn:Ha; simpl;
          [apply authMiddleware_inl in Ha; subst;
           intros _; split; [reflexivity|]; eexists; split; [reflexivity|]; now right|]
      | |- context [validateZod ?s ?q] =>
          let Hv := fresh "Hv" in
          destruct (validateZod s q) as [?|?] eqn:Hv; simpl;
          [apply validateZod_inl in Hv;
           intros _; split; [reflexivity|]; eexists; split; [reflexivity|]; now left|]
      | |- context [validateZodParam ?s ?q] =>
          let Hv := fresh "Hv" in
          destruct (validateZodParam s q) as [?|?] eqn:Hv; simpl;
          [pose proof (validate_inl _ _ _ (or_introl Hv));
           intros _; split; [reflexivity|]; eexists; split; [reflexivity|]; now left|]
      | |- context [validateZodQuery ?s ?q] =>
          let Hv := fresh "Hv" in
          destruct (validateZodQuery s q) as [?|?] eqn:Hv; simpl;
          [pose proof (validate_inl _ _ _ (or_intror Hv));
           intros _; split; [reflexivity|]; eexists; split; [reflexivity|]; now left|]
      end;
    try (match goal with
         | |- context [let (_, _) := ?h in _] => destruct h
         end; simpl);
    intros Hnot; exfalso; apply Hnot; simpl; tauto.
Qed.

Lemma refusal_keeps_store_witness :
  let o :=
    dispatch (H := Sample.bcrypt) (H0 := Sample.jwt) false Sample.userSchema
      (Sample.env 10 "j2") PUT_jobs_id
      (Sample.request (Sample.bearer "u1") "j1" (JObj [("title", JStr "Eng")]))
      Sample.two_users in
  invoked o = [AuthMiddleware; ValidateZod]
  /\ store o = Sample.two_users.
Proof.
  intros o. split; [reflexivity|].
  apply (refusal_keeps_store Sample.bcrypt Sample.jwt false Sample.userSchema
           (Sample.env 10 "j2") PUT_jobs_id).
  vm_compute. intros [H | [H | []]]; discriminate H.
Defined.

Lemma job_handlers_users (nullable : bool) (env : Env) (req : Request) (st : Store) :
  users (createJob nullable env req st).2 = users st
  /\ users (getJobs nullable req st).2 = users st
  /\ users (getJobById nullable req st).2 = users st
  /\ users (updateJob nullable req st).2 = users st
  /\ users (deleteJob nullable req st).2 = users st.
Proof.
  destruct (read_handlers_store nullable req st) as [-> ->].
  destruct (createJob nullable env req st) as [r1 st1] eqn:H1.
  destruct (updateJob nullable req st) as [r2 st2] eqn:H2.
  repeat split; simpl.
  - destruct (createJob_store _ _ _ _ _ _ H1) as [-> | (j & _ & _ & _ & ->)]; reflexivity.
  - destruct (updateJob_store _ _ _ _ _ H2) as [-> | (i & j & j' & _ & _ & _ & _ & ->)];
      reflexivity.
  - destruct (deleteJob_store nullable req st) as [-> | [i ->]]; reflexivity.
Qed.

(** X11: the job routes never write the table of users, and the user
    routes never write the table of jobs, but for [DELETE /users/:id] where
    [Job.userId] is nullable: the database then takes the owner off the jobs
    of the deleted user, and writes nothing else of the table. *)
Theorem tables_apart (B : Bcrypt) (J : Jwt) (nullable : bool) (userSchema : ZodObject)
    (env : Env) (r : Route) (req : Request) (st : Store) :
  let o := dispatch nullable userSchema env r req st in
  match r with
  | POST_jobs | GET_jobs | GET_jobs_id | PUT_jobs_id | DELETE_jobs_id =>
      users (store o) = users st
  | DELETE_users_id =>
      jobs (store o) = jobs st
      \/ (nullable = true /\ exists a, jobs (store o) = disown a <$> jobs st)
  | _ => jobs (store o) = jobs st
  end.
Proof.
  intros o. subst o. unfold dispatch.
  destruct (run_chain_store (chain nullable userSchema env r) req st)
    as [-> | (n & h & req' & Hin & ->)]; [destruct r; auto|].
  destruct (user_handlers_jobs env req' st) as (Hcu & Hlu & Huu & Hlo & Hpr).
  destruct (job_handlers_users nullable env req' st) as (Hcj & Hgj & Hgi & Huj & Hdj).
  destruct r; simpl in Hin;
    repeat (destruct Hin as [Hin | Hin]; [try discriminate Hin|]); try contradiction;
    injection Hin as _ <-; try assumption.
  destruct (deleteUser_store nullable req' st) as [-> | [[i ->] | (-> & i & ->)]];
    simpl; [now left | now left |].
  right. split; [reflexivity|]. exists i. reflexivity.
Qed.

(** X12: [GET /users], [GET /protected], [GET /jobs], [GET /jobs/:id] and
    [POST /login] never write to the database, whatever the request. *)
Theorem reads_keep_store (B : Bcrypt) (J : Jwt) (nullable : bool)
    (userSchema : ZodObject) (env : Env) (r : Route) (req : Request) (st : Store) :
  In r [GET_users; GET_protected; GET_jobs; GET_jobs_id; POST_login] ->
  store (dispatch nullable userSchema env r req st) = st.
Proof.
  intros Hr. unfold dispatch.
  destruct (run_chain_store (chain nullable userSchema env r) req st)
    as [-> | (n & h & req' & Hin & ->)]; [reflexivity|].
  destruct (read_handlers_store nullable req' st) as (Hgj & Hgi).
  assert (Hlogin : (loginUser env req' st).2 = st).
  { unfold loginUser, try_catch, user_findUnique, compare_password, sign_token.
    cases; reflexivity. }
  simpl in Hr.
  repeat (destruct Hr as [<- | Hr];
          [simpl in Hin;
           repeat (destruct Hin as [Hin | Hin]; [try discriminate Hin|]);
           try contradiction; injection Hin as _ <-; first [assumption | reflexivity]|]).
  destruct Hr.
Qed.

Lemma reads_keep_store_witness :
  store (dispatch (H := Sample.bcrypt) (H0 := Sample.jwt) false Sample.userSchema
           (Sample.env 10 "j2") GET_jobs_id
           (Sample.request (Sample.bearer "u2") "j1" JUndefined) Sample.two_users)
  = Sample.two_users.
Proof.
  apply (reads_keep_store Sample.bcrypt Sample.jwt). simpl. tauto.
Defined.

(** ** The users *)

(** X13: [createUser] always answers, with 201, 400 or 500; on 201 the
    database has one more user, stored under the new id, and on 400 and 500
    it is as it was. *)
Theorem createUser_outcomes `{Bcrypt} (env : Env) (req : Request) (st st' : Store)
    (r : Result Response) :
  createUser env req st = (r, st') ->
  exists resp,
    r = Ok resp
    /\ ((code_of resp = 201
         /\ users st !! fresh_id env = None
         /\ exists u, st' = set_users st (<[fresh_id env := u]> (users st)))
        \/ ((code_of resp = 400 \/ code_of resp = 500) /\ st' = st)).
Proof.
  unfold createUser, try_catch, user_create, hash_password.
  cases; intros [= <- <-]; eexists; (split; [reflexivity|]); simpl;
    try (right; split; [auto | reflexivity]).
  left. split; [reflexivity|]. split; [first [assumption | reflexivity]|].
  eexists. reflexivity.
Qed.

Lemma createUser_outcomes_witness :
  exists resp,
    Ok (Respond 400 (error_body "Email and password are required.")) = Ok resp
    /\ ((code_of resp = 201
         /\ users Sample.two_users !! "u3" = None
         /\ exists u, Sample.two_users
                      = set_users Sample.two_users (<["u3" := u]> (users Sample.two_users)))
        \/ ((code_of resp = 400 \/ code_of resp = 500)
            /\ Sample.two_users = Sample.two_users)).
Proof.
  apply (createUser_outcomes (H := Sample.bcrypt) (Sample.env 10 "u3")
           (Sample.request None "" (JObj [("email", JStr "c@x.com"); ("password", JStr "")]))).
  reflexivity.
Defined.

Lemma createUser_succeeds_witness :
  createUser (H := Sample.bcrypt) (Sample.env 10 "u3")
    (Sample.request None ""
       (JObj [("email", JStr "c@x.com"); ("password", JStr "s3cret!"); ("name", JStr "Cy")]))
    Sample.two_users
  = (Ok (Respond 201 (Json (JObj [("id", JStr "u3"); ("email", JStr "c@x.com");
                                   ("password", JStr "$2a$s3cret!"); ("name", JStr "Cy")]))),
     set_users Sample.two_users
       (<["u3" := {| email := "c@x.com"; password := "$2a$s3cret!"; name := Some "Cy" |}]>
          (users Sample.two_users))).
Proof.
  apply (createUser_succeeds (H := Sample.bcrypt) (Sample.env 10 "u3") _ Sample.two_users
           "c@x.com" "s3cret!" (Some "Cy"));
    try reflexivity; discriminate.
Defined.

Lemma user_handlers_users `{Bcrypt} `{Jwt} (env : Env) (req : Request) (st : Store) :
  ((createUser env req st).2 = st
   \/ exists u, users st !! fresh_id env = None
                /\ (createUser env req st).2
                   = set_users st (<[fresh_id env := u]> (users st)))
  /\ ((updateUser req st).2 = st
      \/ exists i u u', users st !! i = Some u /\ password u' = password u
                        /\ (updateUser req st).2 = set_users st (<[i := u']> (users st)))
  /\ (listUsers req st).2 = st
  /\ (loginUser env req st).2 = st
  /\ (protected req st).2 = st.
Proof.
  repeat split.
  - unfold createUser, try_catch, user_create, hash_password. cases; try (now left);
      right; eexists; (split; [first [assumption | reflexivity] | reflexivity]).
  - unfold updateUser, try_catch, user_update. cases; try (now left);
      right; do 3 eexists; (split; [eassumption|]); (split; [|reflexivity]);
      reflexivity.
  - unfold loginUser, try_catch, user_findUnique, compare_password, sign_token.
    cases; reflexivity.
Qed.

(** X14: no route rewrites the stored password of a user: a user who is
    in the database before and after a request has the password hash it
    had. *)
Theorem password_kept (B : Bcrypt) (J : Jwt) (nullable : bool) (userSchema : ZodObject)
    (env : Env) (r : Route) (req : Request) (st : Store) (id : string) (u u' : User) :
  users st !! id = Some u ->
  users (store (dispatch nullable userSchema env r req st)) !! id = Some u' ->
  password u' = password u.
Proof.
  intros Hu. unfold dispatch.
  destruct (run_chain_store (chain nullable userSchema env r) req st)
    as [-> | (n & h & req' & Hin & ->)]; [congruence|].
  destruct (user_handlers_users env req' st) as (Hcu & Huu & Hlu & Hlo & Hpr).
  destruct (job_handlers_users nullable env req' st) as (Hcj & Hgj & Hgi & Huj & Hdj).
  assert (Hdu : users (deleteUser nullable req' st).2 = users st
                \/ exists i, users (deleteUser nullable req' st).2 = delete i (users st)).
  { destruct (deleteUser_store nullable req' st) as [-> | [[i ->] | (_ & i & ->)]];
      simpl; eauto. }
  destruct r; simpl in Hin;
    repeat (destruct Hin as [Hin | Hin]; [try discriminate Hin|]); try contradiction;
    injection Hin as _ <-;
    rewrite ?Hcj, ?Hgj, ?Hgi, ?Huj, ?Hdj, ?Hlu, ?Hlo, ?Hpr; try congruence.
  - destruct Hcu as [-> | (u0 & Hfresh & ->)]; simpl; [congruence|].
    destruct (decide (fresh_id env = id)) as [<-|Hne]; [congruence|].
    rewrite lookup_insert_ne by done. congruence.
  - destruct Huu as [-> | (i & u0 & u1 & Hi & Hp & ->)]; simpl; [congruence|].
    destruct (decide (i = id)) as [<-|Hne].
    + rewrite lookup_insert_eq. congruence.
    + rewrite lookup_insert_ne by done. congruence.
  - destruct Hdu as [-> | [i ->]]; simpl; [congruence|].
    destruct (decide (i = id)) as [<-|Hne].
    + rewrite lookup_delete_eq. discriminate.
    + rewrite lookup_delete_ne by done. congruence.
Qed.

Lemma password_kept_witness :
  let o :=
    dispatch (H := Sample.bcrypt) (H0 := Sample.jwt) false Sample.userSchema
      (Sample.env 10 "u3") PUT_users_id
      (Sample.request (Sample.bearer "u1") "u2"
         (JObj [("email", JStr "bob@x.com"); ("password", JStr "changed!")]))
      Sample.two_users in
  let edited := {| email := "bob@x.com"; password := "$2a$hunter22"; name := Some "Bob" |} in
  users (store o) !! "u2" = Some edited
  /\ password edited = password Sample.bob.
Proof.
  intros o edited.
  assert (Hafter : users (store o) !! "u2" = Some edited) by (vm_compute; reflexivity).
  split; [exact Hafter|].
  exact (password_kept Sample.bcrypt Sample.jwt false Sample.userSchema
           (Sample.env 10 "u3") PUT_users_id _ Sample.two_users "u2" Sample.bob edited
           eq_refl Hafter).
Defined.

Lemma owner_kept_witness :
  let app nullable :=
    dispatch (H := Sample.bcrypt) (H0 := Sample.jwt) nullable Sample.userSchema
      (Sample.env 10 "j2") in
  let put :=
    app false PUT_jobs_id
      (Sample.request (Sample.bearer "u2") "j1" (Sample.job_body "OFFER"))
      Sample.two_users in
  let del :=
    app true DELETE_users_id (Sample.request (Sample.bearer "u2") "u1" JUndefined)
      Sample.two_users in
  let edited :=
    {| title := "Eng"; company := "Acme"; status := "OFFER"; description := None;
       notes := Some "referral"; deadline := None; userId := Some "u1" |} in
  let ownerless :=
    {| title := "Eng"; company := "Acme"; status := "WISHLIST"; description := None;
       notes := Some "referral"; deadline := None; userId := None |} in
  (jobs (store put) !! "j1" = Some edited
   /\ (userId edited = userId Sample.alice_job
       \/ (false = true /\ PUT_jobs_id = DELETE_users_id /\ userId edited = None)))
  /\ jobs (store del) !! "j1" = Some ownerless
  /\ (userId ownerless = userId Sample.alice_job
      \/ (true = true /\ DELETE_users_id = DELETE_users_id /\ userId ownerless = None)).
Proof.
  intros app put del edited ownerless.
  assert (Hput : jobs (store put) !! "j1" = Some edited) by (vm_compute; reflexivity).
  assert (Hdel : jobs (store del) !! "j1" = Some ownerless) by (vm_compute; reflexivity).
  split; [split; [exact Hput|] | split; [exact Hdel|]].
  - exact (owner_kept Sample.bcrypt Sample.jwt false Sample.userSchema
             (Sample.env 10 "j2") PUT_jobs_id _ Sample.two_users "j1" Sample.alice_job
             edited eq_refl Hput).
  - exact (owner_kept Sample.bcrypt Sample.jwt true Sample.userSchema
             (Sample.env 10 "j2") DELETE_users_id _ Sample.two_users "j1"
             Sample.alice_job ownerless eq_refl Hdel).
Defined.

(** ** The jobs *)

Lemma authMiddleware_inr `{Jwt} (env : Env) (req req' : Request) :
  authMiddleware env req = inr req' -> exists decoded, req' = set_user req decoded.
Proof.
  unfold authMiddleware.
  destruct (authorization req) as [h|]; [|discriminate].
  destruct (_ || _); [discriminate|].
  destruct (_ !! _) as [token|]; [|discriminate].
  destruct (jwt_verify _ _ _) as [decoded|]; [|discriminate].
  intros [= <-]. eauto.
Qed.

Lemma updateJob_ok (nullable : bool) (req : Request) (st st' : Store) (payload : Body)
    (t c s : string) (description_v : JsValue) :
  prop (body req) "title" = Ok (JStr t) ->
  prop (body req) "company" = Ok (JStr c) ->
  prop (body req) "status" = Ok (JStr s) ->
  prop (body req) "description" = Ok description_v ->
  updateJob nullable req st = (Ok (Respond 200 payload), st') ->
  exists i j,
    prop (params req) "id" = Ok (JStr i)
    /\ jobs st !! i = Some j
    /\ let j' := {| title := t; company := c; status := s;
                    description := match description_v with
                                   | JStr d => Some d
                                   | JNull => None
                                   | _ => description j
                                   end;
                    notes := notes j; deadline := deadline j; userId := userId j |} in
       payload = Json (job_json (i, j'))
       /\ st' = set_jobs st (<[i := j']> (jobs st)).
Proof.
  intros Ht Hc Hs Hd. unfold updateJob, try_catch. rewrite Ht, Hc, Hs, Hd.
  destruct (prop (params req) "id") as [id_v|]; simpl; [|discriminate].
  destruct (prop (user req) "id") as [userId_v|]; simpl; [|discriminate].
  destruct (job_findFirst nullable id_v userId_v st) as [[found|]|]; simpl;
    try discriminate.
  unfold job_update.
  destruct id_v as [| | | |i| |]; simpl; try discriminate.
  destruct description_v; simpl; try discriminate;
    (destruct (jobs st !! i) as [j|] eqn:Hj; simpl; [|discriminate]);
    intros [= <- <-]; exists i, j; auto.
Qed.

(** X15: a [PUT /jobs/:id] that answers 200 has replaced the title, the
    company and the status of the job of that id by those of the body, and its
    description when the body has one; without a description in the body the
    job keeps the one it had. Notes, deadline and owner are as before, and
    no other job is touched. *)
Theorem updateJob_effect (B : Bcrypt) (J : Jwt) (nullable : bool)
    (userSchema : ZodObject) (env : Env) (req : Request) (st : Store)
    (fs : list (string * JsValue)) (payload : Body) :
  body req = JObj fs ->
  reply (dispatch nullable userSchema env PUT_jobs_id req st)
  = Some (Ok (Respond 200 payload)) ->
  exists i j t c s,
    prop (params req) "id" = Ok (JStr i)
    /\ jobs st !! i = Some j
    /\ field fs "title" = JStr t
    /\ field fs "company" = JStr c
    /\ field fs "status" = JStr s
    /\ let j' := {| title := t; company := c; status := s;
                    description := match field fs "description" with
                                   | JStr d => Some d
                                   | _ => description j
                                   end;
                    notes := notes j; deadline := deadline j; userId := userId j |} in
       payload = Json (job_json (i, j'))
       /\ store (dispatch nullable userSchema env PUT_jobs_id req st)
          = set_jobs st (<[i := j']> (jobs st)).
Proof.
  intros Hbody. unfold dispatch. simpl.
  destruct (authMiddleware env req) as [refusal | req1] eqn:Hauth; simpl.
  { apply authMiddleware_inl in Hauth. subst. discriminate. }
  destruct (authMiddleware_inr env req req1 Hauth) as [decoded ->].
  destruct (validateZod jobSchema (set_user req decoded)) as [refusal | req2] eqn:Hv;
    simpl.
  { apply validateZod_inl in Hv. intros [= ->]. discriminate Hv. }
  assert (Hok : exists req', validateZod jobSchema (set_user req decoded) = inr req')
    by eauto.
  apply (jobSchema_accepts_only (set_user req decoded) fs Hbody) in Hok
    as ((t & Ht & _) & (c & Hc & _) & (s & Hs & _) & Hd & _).
  destruct (validateZod_kept jobSchema _ req2 Hv) as (fs' & data & Hfs' & -> & Hkept).
  simpl in Hfs'. rewrite Hbody in Hfs'. injection Hfs' as <-.
  destruct (updateJob nullable _ st) as [r st'] eqn:Hu. simpl.
  intros [= Hr]. subst r.
  apply (updateJob_ok nullable _ st st' payload t c s (field fs "description")) in Hu;
    simpl.
  - destruct Hu as (i & j & Hi & Hj & Hpayload & Hst).
    exists i, j, t, c, s. simpl in Hi.
    repeat (split; [assumption|]).
    destruct Hd as [Hd | [d Hd]]; rewrite Hd in *; auto.
  - f_equal. rewrite (Hkept "title" (ZStringMin 1 "Title is required"));
      [exact Ht | simpl; tauto].
  - f_equal. rewrite (Hkept "company" (ZStringMin 1 "Company is required"));
      [exact Hc | simpl; tauto].
  - f_equal. rewrite (Hkept "status"
                        (ZEnum ["WISHLIST"; "APPLIED"; "INTERVIEW"; "OFFER"; "REJECTEDz"]));
      [exact Hs | simpl; tauto].
  - f_equal. apply (Hkept "description" (ZOptional ZString)). simpl. tauto.
Qed.

Lemma string_arg_ok (v : JsValue) (s : string) : string_arg v = Ok s -> v = JStr s.
Proof. destruct v; simpl; congruence. Qed.

Lemma deleteJob_cases (nullable : bool) (req : Request) (st : Store) :
  (exists i j,
     prop (params req) "id" = Ok (JStr i)
     /\ jobs st !! i = Some j
     /\ deleteJob nullable req st
        = (Ok (Respond 200 (message_body "Job deleted")),
           set_jobs st (delete i (jobs st))))
  \/ (exists resp, code_of resp <> 200 /\ deleteJob nullable req st = (Ok resp, st)).
Proof.
  unfold deleteJob, try_catch, job_delete.
  cases;
    try (right; eexists; split; [|reflexivity]; simpl; discriminate).
  match goal with Hs : string_arg _ = Ok _ |- _ => apply string_arg_ok in Hs; subst end.
  left. eauto.
Qed.

Lemma deleteJob_ok (nullable : bool) (req : Request) (st st' : Store) (resp : Response) :
  deleteJob nullable req st = (Ok resp, st') ->
  if (code_of resp =? 200)%nat
  then exists i j,
         prop (params req) "id" = Ok (JStr i)
         /\ jobs st !! i = Some j
         /\ resp = Respond 200 (message_body "Job deleted")
         /\ st' = set_jobs st (delete i (jobs st))
  else st' = st.
Proof.
  destruct (deleteJob_cases nullable req st)
    as [(i & j & Hi & Hj & ->) | (resp' & Hcode & ->)]; intros [= <- <-].
  - simpl. eauto 10.
  - apply Nat.eqb_neq in Hcode. now rewrite Hcode.
Qed.

(** X16: a [DELETE /jobs/:id] that answers 200 has removed the job of
    that id, which was in the database, and no other; with any other answer
    the database is as it was. *)
Theorem deleteJob_effect (B : Bcrypt) (J : Jwt) (nullable : bool)
    (userSchema : ZodObject) (env : Env) (req : Request) (st : Store)
    (resp : Response) :
  reply (dispatch nullable userSchema env DELETE_jobs_id req st) = Some (Ok resp) ->
  if (code_of resp =? 200)%nat
  then exists i j,
         prop (params req) "id" = Ok (JStr i)
         /\ jobs st !! i = Some j
         /\ resp = Respond 200 (Json (JObj [("message", JStr "Job deleted")]))
         /\ store (dispatch nullable userSchema env DELETE_jobs_id req st)
            = set_jobs st (delete i (jobs st))
  else store (dispatch nullable userSchema env DELETE_jobs_id req st) = st.
Proof.
  unfold dispatch. simpl.
  destruct (authMiddleware env req) as [refusal | req1] eqn:Hauth; simpl.
  - apply authMiddleware_inl in Hauth. subst. intros [= <-]. reflexivity.
  - destruct (authMiddleware_inr env req req1 Hauth) as [decoded ->].
    destruct (deleteJob nullable _ st) as [r st'] eqn:Hd. simpl.
    intros [= ->]. exact (deleteJob_ok nullable _ st st' resp Hd).
Qed.

Lemma deleteJob_effect_witness :
  let o :=
    dispatch (H := Sample.bcrypt) (H0 := Sample.jwt) false Sample.userSchema
      (Sample.env 10 "j2") DELETE_jobs_id
      (Sample.request (Sample.bearer "u1") "j1" JUndefined) Sample.two_users in
  exists i j,
    Ok (JStr "j1") = Ok (JStr i)
    /\ jobs Sample.two_users !! i = Some j
    /\ Respond 200 (Json (JObj [("message", JStr "Job deleted")]))
       = Respond 200 (Json (JObj [("message", JStr "Job deleted")]))
    /\ store o = set_jobs Sample.two_users (delete i (jobs Sample.two_users)).
Proof.
  intros o.
  apply (deleteJob_effect Sample.bcrypt Sample.jwt false Sample.userSchema
           (Sample.env 10 "j2")
           (Sample.request (Sample.bearer "u1") "j1" JUndefined) Sample.two_users
           (Respond 200 (Json (JObj [("message", JStr "Job deleted")])))).
  vm_compute. reflexivity.
Defined.

Lemma owner_arg_filter (nullable : bool) (v : JsValue) (u : option string) :
  owner_arg nullable v = Ok u ->
  exists fu, string_filter nullable v = Ok fu /\ passes fu u = true.
Proof.
  unfold owner_arg.
  destruct nullable, v; simpl; intros [= <-]; eexists; (split; [reflexivity|]);
    simpl; auto using String.eqb_refl.
Qed.


(** X17: what [POST /jobs] has created, [GET /jobs/:id] returns: after
    [createJob] has answered 201, [getJobById] for the new id and the same
    [req.user] answers 200 with the same job. *)
Theorem create_then_get (nullable : bool) (env : Env) (req req' : Request)
    (st st' : Store) (payload : Body) :
  createJob nullable env req st = (Ok (Respond 201 payload), st') ->
  user req' = user req ->
  prop (params req') "id" = Ok (JStr (fresh_id env)) ->
  getJobById nullable req' st' = (Ok (Respond 200 payload), st').
Proof.
  intros Hc Hu Hp.
  destruct (createJob_ok nullable env req st st' payload Hc)
    as (userId_v & j & Huser & Howner & _ & -> & ->).
  destruct (owner_arg_filter nullable userId_v (userId j) Howner) as (fu & Hfu & Hpass).
  unfold getJobById. rewrite Hp, Hu, Huser. simpl.
  rewrite (job_findFirst_id nullable (fresh_id env) userId_v _ fu Hfu). simpl.
  rewrite lookup_insert_eq, Hpass. reflexivity.
Qed.

Lemma create_then_get_witness :
  let created :=
    createJob true (Sample.env 10 "j2")
      (set_user (Sample.request None "" (Sample.job_body "OFFER"))
         (JObj [("id", JStr "u2")]))
      Sample.two_users in
  exists payload,
    created.1 = Ok (Respond 201 payload)
    /\ getJobById true
         (set_user (Sample.request None "j2" JUndefined) (JObj [("id", JStr "u2")]))
         created.2
       = (Ok (Respond 200 payload), created.2).
Proof.
  intros created. eexists. split; [vm_compute; reflexivity|].
  apply (create_then_get true (Sample.env 10 "j2")
           (set_user (Sample.request None "" (Sample.job_body "OFFER"))
              (JObj [("id", JStr "u2")])) _ Sample.two_users);
    [vm_compute; reflexivity | reflexivity | reflexivity].
Defined.

(** X18: creating a job and deleting it leaves the database as it was:
    after [createJob] has answered 201, [deleteJob] for the new id and the
    same [req.user] answers 200 and gives back the database of before the
    creation. *)
Theorem create_then_delete (nullable : bool) (env : Env) (req req' : Request)
    (st st' : Store) (payload : Body) :
  createJob nullable env req st = (Ok (Respond 201 payload), st') ->
  user req' = user req ->
  prop (params req') "id" = Ok (JStr (fresh_id env)) ->
  deleteJob nullable req' st'
  = (Ok (Respond 200 (Json (JObj [("message", JStr "Job deleted")]))), st).
Proof.
  intros Hc Hu Hp.
  destruct (createJob_ok nullable env req st st' payload Hc)
    as (userId_v & j & Huser & Howner & Hfresh & -> & ->).
  destruct (owner_arg_filter nullable userId_v (userId j) Howner) as (fu & Hfu & Hpass).
  unfold deleteJob, job_delete. rewrite Hp, Hu, Huser. simpl.
  rewrite (job_findFirst_id nullable (fresh_id env) userId_v _ fu Hfu). simpl.
  rewrite lookup_insert_eq, Hpass. simpl.
  unfold set_jobs. simpl. rewrite delete_insert_eq, (delete_id _ _ Hfresh).
  now destruct st.
Qed.

Lemma create_then_delete_witness :
  let created :=
    createJob true (Sample.env 10 "j2")
      (set_user (Sample.request None "" (Sample.job_body "OFFER"))
         (JObj [("id", JStr "u2")]))
      Sample.two_users in
  deleteJob true
    (set_user (Sample.request None "j2" JUndefined) (JObj [("id", JStr "u2")]))
    created.2
  = (Ok (Respond 200 (Json (JObj [("message", JStr "Job deleted")]))), Sample.two_users).
Proof.
  intros created.
  apply (create_then_delete true (Sample.env 10 "j2")
           (set_user (Sample.request None "" (Sample.job_body "OFFER"))
              (JObj [("id", JStr "u2")])) _ Sample.two_users created.2
           (Json (job_json ("j2",
              {| title := "Eng"; company := "Acme"; status := "OFFER";
                 description := None; notes := None; deadline := None;
                 userId := Some "u2" |}))));
    [vm_compute; reflexivity | reflexivity | reflexivity].
Defined.


Lemma updateJob_effect_witness :
  let o :=
    dispatch (H := Sample.bcrypt) (H0 := Sample.jwt) false Sample.userSchema
      (Sample.env 10 "j2") PUT_jobs_id
      (Sample.request (Sample.bearer "u1") "j1" (Sample.job_body "OFFER"))
      Sample.two_users in
  store o
  = set_jobs Sample.two_users
      (<["j1" := {| title := "Eng"; company := "Acme"; status := "OFFER";
                    description := None; notes := Some "referral"; deadline := None;
                    userId := Some "u1" |}]> (jobs Sample.two_users)).
Proof.
  intros o.
  destruct (updateJob_effect Sample.bcrypt Sample.jwt false Sample.userSchema
              (Sample.env 10 "j2")
              (Sample.request (Sample.bearer "u1") "j1" (Sample.job_body "OFFER"))
              Sample.two_users
              [("title", JStr "Eng"); ("company", JStr "Acme"); ("status", JStr "OFFER")]
              (Json (job_json ("j1",
                 {| title := "Eng"; company := "Acme"; status := "OFFER";
                    description := None; notes := Some "referral"; deadline := None;
                    userId := Some "u1" |})))
              eq_refl)
    as (i & j & t & c & s & Hi & Hj & Ht & Hc & Hs & _ & Hstore);
    [vm_compute; reflexivity|].
  injection Hi as <-. injection Ht as <-. injection Hc as <-. injection Hs as <-.
  change (Some Sample.alice_job = Some j) in Hj. injection Hj as <-.
  exact Hstore.
Defined.

(** ** Deleting a user *)

(** X19: [DELETE /users/:id] does not ask whose account it is: sent with
    the token of any logged-in user [b], it removes the user [a] named in
    the path and answers 200, and answers 500 when no user has that id. (For
    a user who owns no job.) *)
Theorem deleteUser_any_caller {B : Bcrypt} `{L : JwtLaws} (nullable : bool)
    (userSchema : ZodObject) (env : Env) (req : Request) (st : Store)
    (a b : string) (t : Z) :
  (t <= now env < t + 3600)%Z ->
  authorization req
  = Some ("Bearer " ++ jwt_sign [("userId", JStr b)] (JWT_SECRET env) 3600 t) ->
  params req = JObj [("id", JStr a)] ->
  a <> "" ->
  (forall i j, jobs st !! i = Some j -> userId j <> Some a) ->
  dispatch nullable userSchema env DELETE_users_id req st
  = {| invoked := [AuthMiddleware; ValidateZodParam; DeleteUser];
       reply := Some (Ok match users st !! a with
                         | Some _ => Respond 200 (Json (JObj [("message", JStr "User deleted")]))
                         | None => Respond 500
                                     (Failure "Failed to delete user" PrismaRecordNotFound)
                         end);
       store := match users st !! a with
                | Some _ => set_users st (delete a (users st))
                | None => st
                end |}.
Proof.
  intros Ht Hh Hparams Ha Hnone.
  destruct (authMiddleware_admits env req b t Ht Hh) as (iat & exp & Hauth).
  assert (Howns : owns_job a (map_to_list (jobs st)) = false).
  { unfold owns_job. destruct (existsb _ _) eqn:Hex; [|reflexivity].
    apply existsb_exists in Hex as ([i j] & Hin & Hpass).
    apply list_elem_of_In, elem_of_map_to_list in Hin. simpl in Hpass.
    destruct (userId j) as [o|] eqn:Ho; [|discriminate].
    apply String.eqb_eq in Hpass. subst o. now destruct (Hnone i j Hin). }
  unfold dispatch. simpl. rewrite Hauth.
  unfold validateZodParam. simpl params. rewrite Hparams.
  destruct a as [|ch a]; [contradiction|]. simpl.
  unfold deleteUser, user_delete. simpl. rewrite Howns.
  destruct (users st !! String ch a); reflexivity.
Qed.

Lemma deleteUser_any_caller_witness :
  let o :=
    dispatch (H := Sample.bcrypt) (H0 := Sample.jwt) false Sample.userSchema
      (Sample.env 10 "u3") DELETE_users_id
      (Sample.request (Sample.bearer "u1") "u2" JUndefined) Sample.two_users in
  reply o = Some (Ok (Respond 200 (Json (JObj [("message", JStr "User deleted")]))))
  /\ users (store o) !! "u2" = None
  /\ users (store o) !! "u1" = Some Sample.alice.
Proof.
  intros o. subst o.
  rewrite (deleteUser_any_caller (B := Sample.bcrypt) (L := sample_jwt_laws)
             false Sample.userSchema (Sample.env 10 "u3") _ Sample.two_users
             "u2" "u1" 0%Z);
    [| simpl; lia | reflexivity | reflexivity | discriminate |].
  - split; [reflexivity|]. split; reflexivity.
  - intros i j Hj. apply elem_of_map_to_list, list_elem_of_In in Hj.
    vm_compute in Hj. destruct Hj as [Hj | []]. injection Hj as <- <-. discriminate.
Defined.

(** X27: [DELETE /users/:id] for a stored user who owns a job, sent with
    the token of any logged-in user: where [Job.userId] is required the
    database refuses the delete and the answer is 500
    [{error: "Failed to delete user"}], nothing written; where it is nullable
    the user is removed, the answer is 200 and the jobs of that user stay
    without an owner. *)
Theorem deleteUser_with_jobs {B : Bcrypt} `{L : JwtLaws} (nullable : bool)
    (userSchema : ZodObject) (env : Env) (req : Request) (st : Store)
    (a b : string) (t : Z) (u : User) (i : string) (j : Job) :
  (t <= now env < t + 3600)%Z ->
  authorization req
  = Some ("Bearer " ++ jwt_sign [("userId", JStr b)] (JWT_SECRET env) 3600 t) ->
  params req = JObj [("id", JStr a)] ->
  a <> "" ->
  users st !! a = Some u ->
  jobs st !! i = Some j ->
  userId j = Some a ->
  dispatch nullable userSchema env DELETE_users_id req st
  = {| invoked := [AuthMiddleware; ValidateZodParam; DeleteUser];
       reply := Some (Ok (if nullable
                          then Respond 200 (Json (JObj [("message", JStr "User deleted")]))
                          else Respond 500 (Failure "Failed to delete user"
                                              PrismaForeignKeyConstraint)));
       store := if nullable
                then {| users := delete a (users st); jobs := disown a <$> jobs st |}
                else st |}.
Proof.
  intros Ht Hh Hparams Ha Hu Hj Howner.
  destruct (authMiddleware_admits env req b t Ht Hh) as (iat & exp & Hauth).
  assert (Howns : owns_job a (map_to_list (jobs st)) = true).
  { unfold owns_job. apply existsb_exists. exists (i, j). split.
    - apply list_elem_of_In, elem_of_map_to_list. exact Hj.
    - simpl. rewrite Howner. apply String.eqb_refl. }
  unfold dispatch. simpl. rewrite Hauth.
  unfold validateZodParam. simpl params. rewrite Hparams.
  destruct a as [|ch a]; [contradiction|]. simpl.
  unfold deleteUser, user_delete. simpl. rewrite Hu, Howns.
  destruct nullable; reflexivity.
Qed.

Lemma deleteUser_with_jobs_witness :
  let app nullable :=
    dispatch (H := Sample.bcrypt) (H0 := Sample.jwt) nullable Sample.userSchema
      (Sample.env 10 "u3") DELETE_users_id
      (Sample.request (Sample.bearer "u2") "u1" JUndefined) Sample.two_users in
  (reply (app false)
   = Some (Ok (Respond 500 (Failure "Failed to delete user" PrismaForeignKeyConstraint)))
   /\ store (app false) = Sample.two_users)
  /\ users (store (app true)) !! "u1" = None
  /\ (userId <$> jobs (store (app true)) !! "j1") = Some None.
Proof.
  intros app. subst app. cbv beta.
  rewrite (deleteUser_with_jobs (B := Sample.bcrypt) (L := sample_jwt_laws)
             false Sample.userSchema (Sample.env 10 "u3") _ Sample.two_users
             "u1" "u2" 0%Z Sample.alice "j1" Sample.alice_job);
    [| simpl; lia | reflexivity | reflexivity | discriminate
     | reflexivity | reflexivity | reflexivity].
  rewrite (deleteUser_with_jobs (B := Sample.bcrypt) (L := sample_jwt_laws)
             true Sample.userSchema (Sample.env 10 "u3") _ Sample.two_users
             "u1" "u2" 0%Z Sample.alice "j1" Sample.alice_job);
    [| simpl; lia | reflexivity | reflexivity | discriminate
     | reflexivity | reflexivity | reflexivity].
  split; [split; reflexivity|]. split; vm_compute; reflexivity.
Defined.

(** ** Logging in without a secret *)

(** X26: where [JWT_SECRET] is empty or not set, a login with the email of
    a stored user and a password that [bcrypt.compare] accepts is answered
    500 [{error: "Failed to login"}], [jwt.sign] throwing for want of a
    secret; the database is not written. *)
Theorem loginUser_no_secret `{Bcrypt} `{Jwt} (env : Env) (req : Request) (st : Store)
    (e p : string) :
  JWT_SECRET env = "" ->
  prop (body req) "email" = Ok (JStr e) ->
  prop (body req) "password" = Ok (JStr p) ->
  email_taken e (map_to_list (users st)) = true ->
  (forall uid u, users st !! uid = Some u -> email u = e ->
                 bcrypt_compare p (password u) = true) ->
  loginUser env req st
  = (Ok (Respond 500 (Failure "Failed to login" JwtSecretMissing)), st).
Proof.
  intros Hsecret He Hp Htaken Hall. unfold loginUser, user_findUnique.
  rewrite He, Hp. simpl.
  pose proof (find_email e (map_to_list (users st))) as Hfind.
  destruct (List.find _ _) as [[uid u]|]; simpl; [|congruence].
  destruct Hfind as (Hin & Hemail & _).
  apply list_elem_of_In, elem_of_map_to_list in Hin.
  rewrite (Hall uid u Hin Hemail). simpl.
  unfold sign_token. rewrite Hsecret. reflexivity.
Qed.

Lemma loginUser_no_secret_witness :
  loginUser (H := Sample.bcrypt) (H0 := Sample.jwt)
    {| JWT_SECRET := ""; now := 10; salt := "salt"; fresh_id := "u3" |}
    (Sample.request None "" (JObj [("email", JStr "b@x.com"); ("password", JStr "hunter22")]))
    Sample.two_users
  = (Ok (Respond 500 (Failure "Failed to login" JwtSecretMissing)), Sample.two_users).
Proof.
  apply (loginUser_no_secret (H := Sample.bcrypt) (H0 := Sample.jwt) _ _ _
           "b@x.com" "hunter22");
    [reflexivity | reflexivity | reflexivity | vm_compute; reflexivity |].
  intros uid u Hu He.
  apply elem_of_map_to_list, list_elem_of_In in Hu. vm_compute in Hu.
  destruct Hu as [Hu | [Hu | []]]; injection Hu as <- <-;
    [discriminate He | reflexivity].
Defined.

(** ** The job handlers when [req.user.id] is the id of the caller, continued *)

Lemma createJob_owner_witness :
  exists j,
    jobs (createJob false (Sample.env 10 "j2")
            (set_user (Sample.request None "" (Sample.job_body "OFFER"))
               (JObj [("id", JStr "u2")]))
            Sample.two_users).2 !! "j2" = Some j
    /\ userId j = Some "u2".
Proof.
  destruct (createJob_owner false (Sample.env 10 "j2")
              (set_user (Sample.request None "" (Sample.job_body "OFFER"))
                 (JObj [("id", JStr "u2")]))
              Sample.two_users _ "u2" _ eq_refl eq_refl) as (j & Hj & Hu & _).
  exists j. auto.
Defined.

Lemma getJobs_scoped_witness :
  let req := set_user (Sample.request None "" JUndefined) (JObj [("id", JStr "u1")]) in
  exists found,
    getJobs false req Sample.two_users
    = (Ok (Respond 200 (Json (JArr (map job_json found)))), Sample.two_users)
    /\ In ("j1", Sample.alice_job) found.
Proof.
  intros req.
  destruct (getJobs_scoped false req Sample.two_users "u1" eq_refl)
    as (found & Hlisted & Hfound).
  exists found. split; [exact Hlisted|].
  apply Hfound. split; reflexivity.
Defined.

Lemma foreign_job_hidden_witness :
  let req id :=
    set_user (Sample.request None id (Sample.job_body "OFFER")) (JObj [("id", JStr "u2")]) in
  let not_found := (Ok (Respond 404 (error_body "Job not found")), Sample.two_users) in
  (getJobById false (req "j1") Sample.two_users = not_found
   /\ updateJob false (req "j1") Sample.two_users = not_found
   /\ deleteJob false (req "j1") Sample.two_users = not_found)
  /\ (getJobById false (req "j9") Sample.two_users = not_found
      /\ updateJob false (req "j9") Sample.two_users = not_found
      /\ deleteJob false (req "j9") Sample.two_users = not_found).
Proof.
  intros req not_found. split.
  - apply (foreign_job_hidden false (req "j1") Sample.two_users "u1" "u2" "j1"
             Sample.alice_job
             [("title", JStr "Eng"); ("company", JStr "Acme"); ("status", JStr "OFFER")]);
      try reflexivity; [left; reflexivity | discriminate].
  - apply (foreign_job_hidden false (req "j9") Sample.two_users "u1" "u2" "j9"
             Sample.alice_job
             [("title", JStr "Eng"); ("company", JStr "Acme"); ("status", JStr "OFFER")]);
      try reflexivity; [right; reflexivity | discriminate].
Defined.
